(** * remoteobjects: lazily delivered objects and query filters

    A shallow embedding of [remoteobjects/promise.py] (the package's
    [PromiseObject]) and of the older top-level [promise.py]
    ([PromiseObject] and [ListObject]), with the pieces of the Python 2
    standard library their [filter] method goes through ([urlparse],
    [cgi.parse_qs], [dict], [urllib.urlencode]).

    Python objects live in a heap and are named by references; methods are
    computations in a state-and-exception monad over a world made of that
    heap, the store of raw mappings and the log of transport requests. *)

From Stdlib Require Import ZArith Lia Ascii.
From stdpp Require Import base list strings pretty.

Open Scope Z_scope.

(** ** Python byte strings *)

Module Str.

Definition eqb_ascii (a b : ascii) : bool := bool_decide (a = b).

(** [s.find(c) >= 0] *)
Fixpoint contains (c : ascii) (s : string) : bool :=
  match s with
  | EmptyString => false
  | String a s' => eqb_ascii a c || contains c s'
  end.

(** [s.split(c, 1)]: the text before the first [c] and the text after it;
    the whole of [s] and nothing when [c] does not occur. *)
Fixpoint split1 (c : ascii) (s : string) : string * option string :=
  match s with
  | EmptyString => (EmptyString, None)
  | String a s' =>
      if eqb_ascii a c then (EmptyString, Some s')
      else let '(h, t) := split1 c s' in (String a h, t)
  end.

(** [s.split(c)]: never an empty list. *)
Fixpoint split (c : ascii) (s : string) : list string :=
  match s with
  | EmptyString => [EmptyString]
  | String a s' =>
      if eqb_ascii a c then EmptyString :: split c s'
      else match split c s' with
           | h :: t => String a h :: t
           | [] => [String a EmptyString]
           end
  end.

(** [sep.join(l)] *)
Fixpoint join (sep : string) (l : list string) : string :=
  match l with
  | [] => ""
  | [x] => x
  | x :: l' => x +:+ sep +:+ join sep l'
  end.

(** [s.replace(a, b)] for single characters. *)
Fixpoint replace (a b : ascii) (s : string) : string :=
  match s with
  | EmptyString => EmptyString
  | String c s' => String (if eqb_ascii c a then b else c) (replace a b s')
  end.

Fixpoint forallb (p : ascii -> bool) (s : string) : bool :=
  match s with
  | EmptyString => true
  | String c s' => p c && forallb p s'
  end.

Definition code (c : ascii) : Z := Z.of_nat (nat_of_ascii c).
Definition chr (z : Z) : ascii := ascii_of_nat (Z.to_nat z).

Definition between (lo hi : string) (c : ascii) : bool :=
  match lo, hi with
  | String l _, String h _ => (code l <=? code c) && (code c <=? code h)
  | _, _ => false
  end.

Definition is_digit (c : ascii) : bool := between "0" "9" c.
Definition is_upper (c : ascii) : bool := between "A" "Z" c.
Definition is_lower (c : ascii) : bool := between "a" "z" c.
Definition is_alnum (c : ascii) : bool := is_digit c || is_upper c || is_lower c.

(** [s.lower()] *)
Fixpoint lower (s : string) : string :=
  match s with
  | EmptyString => EmptyString
  | String c s' =>
      String (if is_upper c then chr (code c + 32) else c) (lower s')
  end.

(** [s[:2] == p] for a prefix [p]. *)
Fixpoint startswith (p s : string) : bool :=
  match p, s with
  | EmptyString, _ => true
  | String a p', String b s' => eqb_ascii a b && startswith p' s'
  | String _ _, EmptyString => false
  end.

(** The longest prefix whose characters all fail [stop], and the rest. *)
Fixpoint span_until (stop : ascii -> bool) (s : string) : string * string :=
  match s with
  | EmptyString => (EmptyString, EmptyString)
  | String c s' =>
      if stop c then (EmptyString, s)
      else let '(h, t) := span_until stop s' in (String c h, t)
  end.

Definition nonempty (s : string) : bool :=
  match s with EmptyString => false | _ => true end.

End Str.

(** ** Python values *)

(** What an instance dictionary or a raw mapping holds. *)
Inductive pyval : Type :=
  | PNone
  | PStr (s : string)
  | PInt (n : Z)
  | PRef (a : nat).   (* a reference to a mapping in the store *)

(** What a keyword argument of [filter] holds. *)
Inductive qval : Type :=
  | QNone
  | QStr (s : string)
  | QInt (n : Z).

(** [str(v)], which [urllib.urlencode] applies to every key and value. *)
Definition py_str (v : qval) : string :=
  match v with
  | QNone => "None"
  | QStr s => s
  | QInt n => pretty n
  end.

(** ** [urllib]: percent-encoding (Python 2.5/2.6, current when the code was
    written) *)

Module urllib.

Definition hex_digit (n : Z) : ascii :=
  if n <? 10 then Str.chr (48 + n) else Str.chr (55 + n).

(** ['%%%02X' % i] *)
Definition percent (c : ascii) : string :=
  let i := Str.code c in
  String "%" (String (hex_digit (i / 16)) (String (hex_digit (i mod 16)) "")).

(** Membership in [always_safe]: letters, digits and ["_.-"]. *)
Definition always_safe (c : ascii) : bool :=
  Str.is_alnum c || Str.contains c "_.-".

(** [quote(s, safe)]: every character not in [safe + always_safe] becomes
    [%XX]. *)
Fixpoint quote (safe : string) (s : string) : string :=
  match s with
  | EmptyString => EmptyString
  | String c s' =>
      (if Str.contains c safe || always_safe c
       then String c EmptyString else percent c) +:+ quote safe s'
  end.

(** [quote_plus(s)] with its default [safe = '']. *)
Definition quote_plus (s : string) : string :=
  if Str.contains " " s
  then Str.replace " " "+" (quote " " s)
  else quote "" s.

(** The value of a hexadecimal digit. *)
Definition hex_value (c : ascii) : option Z :=
  if Str.is_digit c then Some (Str.code c - 48)
  else if Str.between "A" "F" c then Some (Str.code c - 55)
  else if Str.between "a" "f" c then Some (Str.code c - 87)
  else None.

(** [_hextochr] has the keys ['%02x' % i] and ['%02X' % i]: two
    hexadecimal digits whose letters share one case. *)
Definition hextochr (a b : ascii) : option ascii :=
  match hex_value a, hex_value b with
  | Some x, Some y =>
      if (Str.is_lower a && Str.is_upper b) || (Str.is_upper a && Str.is_lower b)
      then None else Some (Str.chr (16 * x + y))
  | _, _ => None
  end.

Definition unquote_item (item : string) : string :=
  match item with
  | String a (String b rest) =>
      match hextochr a b with
      | Some c => String c rest
      | None => String "%" item
      end
  | _ => String "%" item
  end.

(** [unquote(s)]: split on ['%'], decode the head of every piece but the
    first. *)
Definition unquote (s : string) : string :=
  match Str.split "%" s with
  | [] => ""
  | h :: t => h +:+ Str.join "" (map unquote_item t)
  end.

(** [urlencode(query)] (with [doseq=0]) on the items of [query]. *)
Definition urlencode_item (kv : string * qval) : string :=
  quote_plus kv.1 +:+ "=" +:+ quote_plus (py_str kv.2).

Definition urlencode (items : list (string * qval)) : string :=
  Str.join "&" (map urlencode_item items).

End urllib.

(** ** Python 2 [dict] with string keys

    A dict is the list of its items in iteration order, keys pairwise
    distinct.  Python 2 promises no iteration order: storing under a key the
    dict already has keeps every item where it is, storing under a new key
    may rearrange the items in any way.  That rearrangement is the parameter
    [arrange] of a dict implementation. *)

Module dict.

Abbreviation t V := (list (string * V)) (only parsing).

Record impl : Type := Impl {
  arrange : forall V : Type, list (string * V) -> list (string * V);
  arrange_perm : forall (V : Type) (l : list (string * V)), arrange V l ≡ₚ l
}.

Section ops.
Context {V : Type}.

(** [d.get(k)]; [k in d] is [is_Some (get d k)]. *)
Fixpoint get (d : t V) (k : string) : option V :=
  match d with
  | [] => None
  | (k', v) :: d' => if decide (k' = k) then Some v else get d' k
  end.

Definition keys (d : t V) : list string := d.*1.

(** [d.items()] / [d.iteritems()] *)
Definition items (d : t V) : list (string * V) := d.

(** [d[k] = v] for a key the dict has: the item keeps its place. *)
Fixpoint replace (d : t V) (k : string) (v : V) : t V :=
  match d with
  | [] => []
  | (k', v') :: d' =>
      if decide (k' = k) then (k', v) :: d' else (k', v') :: replace d' k v
  end.

(** [d[k] = v] *)
Definition set (I : impl) (d : t V) (k : string) (v : V) : t V :=
  match get d k with
  | Some _ => replace d k v
  | None => arrange I V (d ++ [(k, v)])
  end.

(** [d.update(other)]: stores the items of [other] one after the other. *)
Definition update (I : impl) (d : t V) (other : list (string * V)) : t V :=
  fold_left (fun d kv => set I d kv.1 kv.2) other d.

(** [dict(pairs)] *)
Definition of_items (I : impl) (pairs : list (string * V)) : t V :=
  update I [] pairs.

End ops.

(** *** An insertion-ordered dict (what Python 3.7 and later have) *)


(** *** The order of a small CPython 2 dict

    CPython 2 keeps the items in a hash table (eight slots until the sixth
    item arrives), puts a new key into slot [hash land 7] when that slot is
    free, and iterates over the slots in order.  [string_hash] is the hash
    of a byte string on a 64-bit build; its low three bits are the same on
    a 32-bit build. *)

Definition wrap64 (x : Z) : Z := x mod 2 ^ 64.

Definition string_hash (s : string) : Z :=
  match s with
  | EmptyString => 0
  | String c0 _ =>
      let fix go (x : Z) (s : string) : Z :=
        match s with
        | EmptyString => x
        | String c s' => go (Z.lxor (wrap64 (1000003 * x)) (Str.code c)) s'
        end in
      let x := Z.lxor (go (Z.shiftl (Str.code c0) 7) s) (Z.of_nat (String.length s)) in
      if decide (x = 2 ^ 64 - 1) then 2 ^ 64 - 2 else x
  end.

Definition slot (k : string) : Z := Z.land (string_hash k) 7.

Section by_slot.
Context {V : Type}.

(** Stable insertion of an item behind the items of no greater slot. *)
Fixpoint insert_by_slot (kv : string * V) (l : list (string * V))
  : list (string * V) :=
  match l with
  | [] => [kv]
  | kv' :: l' =>
      if slot kv'.1 <=? slot kv.1 then kv' :: insert_by_slot kv l'
      else kv :: l
  end.

Definition sort_by_slot (l : list (string * V)) : list (string * V) :=
  fold_left (fun acc kv => insert_by_slot kv acc) l [].

Lemma insert_by_slot_perm kv l : insert_by_slot kv l ≡ₚ kv :: l.
Proof.
  induction l as [|kv' l IH]; simpl; [done|].
  destruct (slot kv'.1 <=? slot kv.1); [|done].
  rewrite IH. apply Permutation_swap.
Qed.

Lemma sort_by_slot_perm l : sort_by_slot l ≡ₚ l.
Proof.
  unfold sort_by_slot.
  enough (H : forall acc, fold_left (fun acc kv => insert_by_slot kv acc) l acc
                          ≡ₚ acc ++ l).
  { apply (H []). }
  induction l as [|kv l IH]; intros acc; simpl.
  - by rewrite app_nil_r.
  - rewrite IH, insert_by_slot_perm. simpl. apply Permutation_middle.
Qed.
End by_slot.

(** Exact for a dict of at most five keys in pairwise distinct slots. *)
Definition cpython2 : impl := Impl (@sort_by_slot) (@sort_by_slot_perm).


End dict.

(** ** [cgi.parse_qsl] and the grouping loop of [cgi.parse_qs] *)

Module cgi.

(** One [name_value] piece of the query, with [strict_parsing] off. *)
Definition parse_pair (keep_blank_values : bool) (name_value : string)
  : option (string * string) :=
  if negb (Str.nonempty name_value) then None
  else
    let '(n, v) := Str.split1 "=" name_value in
    let nv :=
      match v with
      | Some v => Some (n, v)
      | None => if keep_blank_values then Some (n, "") else None
      end in
    match nv with
    | Some (n, v) =>
        if Str.nonempty v || keep_blank_values
        then Some (urllib.unquote (Str.replace "+" " " n),
                   urllib.unquote (Str.replace "+" " " v))
        else None
    | None => None
    end.

(** [parse_qsl(qs, keep_blank_values)]: the name, value pairs of the query
    in the order they are written. *)
Definition parse_qsl (qs : string) (keep_blank_values : bool)
  : list (string * string) :=
  let pairs := concat (map (Str.split ";") (Str.split "&" qs)) in
  omap (parse_pair keep_blank_values) pairs.

(** The loop of [parse_qs]: [dict[name].append(value)] for a name the dict
    has, [dict[name] = [value]] for a new one. *)
Definition parse_qs_step (I : dict.impl) (d : dict.t (list string))
    (nv : string * string) : dict.t (list string) :=
  match dict.get d nv.1 with
  | Some vs => dict.replace d nv.1 (vs ++ [nv.2])
  | None => dict.set I d nv.1 [nv.2]
  end.

Definition parse_qs (I : dict.impl) (qs : string) (keep_blank_values : bool)
  : dict.t (list string) :=
  fold_left (parse_qs_step I) (parse_qsl qs keep_blank_values) [].

End cgi.

(** ** [urlparse] (Python 2.5/2.6) *)

Module urlparse.

(** The six components [urlparse] returns; [parts[4]] is [query]. *)
Record parts : Type := Parts {
  scheme : string;
  netloc : string;
  path : string;
  params : string;
  query : string;
  fragment : string
}.

Definition set_query (p : parts) (q : string) : parts :=
  Parts (scheme p) (netloc p) (path p) (params p) q (fragment p).

Definition uses_netloc : list string :=
  ["ftp"; "http"; "gopher"; "nntp"; "telnet"; "imap"; "wais"; "file"; "mms";
   "https"; "shttp"; "snews"; "prospero"; "rtsp"; "rtspu"; "rsync"; "";
   "svn"; "svn+ssh"; "sftp"].
Definition uses_query : list string :=
  ["http"; "wais"; "imap"; "https"; "shttp"; "mms"; "gopher"; "rtsp";
   "rtspu"; "sip"; "sips"; ""].
Definition uses_fragment : list string :=
  ["ftp"; "hdl"; "http"; "gopher"; "news"; "nntp"; "wais"; "https"; "shttp";
   "snews"; "file"; "prospero"; ""].
Definition uses_params : list string :=
  ["ftp"; "hdl"; "prospero"; "http"; "imap"; "https"; "shttp"; "rtsp";
   "rtspu"; "sip"; "sips"; "mms"; ""; "sftp"].

Definition among (s : string) (l : list string) : bool := bool_decide (s ∈ l).

Definition scheme_char (c : ascii) : bool :=
  Str.is_alnum c || Str.contains c "+-.".

Definition drop2 (s : string) : string :=
  match s with
  | String _ (String _ r) => r
  | _ => ""
  end.

(** [_splitnetloc(url, 2)]: the text between the leading ["//"] and the
    first of ["/?#"]. *)
Definition splitnetloc (url : string) : string * string :=
  Str.span_until (fun c => Str.contains c "/?#") (drop2 url).

(** [url.split(c, 1)] guarded by [c in url]. *)
Definition cut (c : ascii) (url : string) : string * string :=
  match Str.split1 c url with
  | (u, Some r) => (u, r)
  | (u, None) => (u, "")
  end.

Definition urlsplit (url : string) : string * string * string * string * string :=
  let '(scheme, url) :=
    match Str.split1 ":" url with
    | (s, Some rest) =>
        if Str.nonempty s && Str.forallb scheme_char s
        then (Str.lower s, rest) else ("", url)
    | (_, None) => ("", url)
    end in
  let '(netloc, url) :=
    if among scheme uses_netloc && Str.startswith "//" url
    then splitnetloc url else ("", url) in
  let '(url, fragment) :=
    if among scheme uses_fragment then cut "#" url else (url, "") in
  let '(url, query) :=
    if among scheme uses_query then cut "?" url else (url, "") in
  (scheme, netloc, url, query, fragment).

(** The text through the last [c] of [s], and the text after it. *)
Fixpoint after_last (c : ascii) (s : string) : string * string :=
  match s with
  | EmptyString => (EmptyString, EmptyString)
  | String a s' =>
      if Str.contains c s'
      then let '(p, r) := after_last c s' in (String a p, r)
      else if Str.eqb_ascii a c then (String a EmptyString, s')
      else (EmptyString, s)
  end.

(** [_splitparams(url)]: the parameters follow the first [';'] of the last
    path segment. *)
Definition splitparams (url : string) : string * string :=
  let '(dir, last) := after_last "/" url in
  match Str.split1 ";" last with
  | (l, Some p) => (dir +:+ l, p)
  | (_, None) => (url, "")
  end.

Definition urlparse (url : string) : parts :=
  let '(scheme, netloc, url, query, fragment) := urlsplit url in
  let '(url, params) :=
    if among scheme uses_params && Str.contains ";" url
    then splitparams url else (url, "") in
  Parts scheme netloc url params query fragment.

Definition urlunsplit (scheme netloc url query fragment : string) : string :=
  let url :=
    if Str.nonempty netloc
       || (Str.nonempty scheme && among scheme uses_netloc
           && negb (Str.startswith "//" url))
    then
      let url :=
        if Str.nonempty url && negb (Str.startswith "/" url)
        then "/" +:+ url else url in
      "//" +:+ netloc +:+ url
    else url in
  let url := if Str.nonempty scheme then scheme +:+ ":" +:+ url else url in
  let url := if Str.nonempty query then url +:+ "?" +:+ query else url in
  if Str.nonempty fragment then url +:+ "#" +:+ fragment else url.

Definition urlunparse (p : parts) : string :=
  let url :=
    if Str.nonempty (params p) then path p +:+ ";" +:+ params p else path p in
  urlunsplit (scheme p) (netloc p) url (query p) (fragment p).

End urlparse.

(** ** The part of [filter] that computes the new URL

    [[
        parts = list(urlparse.urlparse(self._location))
        queryargs = cgi.parse_qs(parts[4], keep_blank_values=True)
        queryargs = dict([(k, v[0]) for k, v in queryargs.iteritems()])
        queryargs.update(kwargs)
        parts[4] = urllib.urlencode(queryargs)
        newurl = urlunparse.urlunparse(parts)
    ]]
    The same six lines stand in [PromiseObject.filter] of the package and in
    [ListObject.filter] of the top-level module. *)

Module Query.

(** [(k, v[0])]; [None] where [v[0]] raises [IndexError]. *)
Definition first_value (kv : string * list string) : option (string * qval) :=
  match kv.2 with
  | v0 :: _ => Some (kv.1, QStr v0)
  | [] => None
  end.

(** [[(k, v[0]) for k, v in queryargs.iteritems()]] *)
Definition first_values (queryargs : dict.t (list string))
  : option (list (string * qval)) :=
  mapM first_value (dict.items queryargs).

(** [queryargs] after [queryargs.update(kwargs)]. *)
Definition merged (I : dict.impl) (qs : string) (kwargs : dict.t qval)
  : option (dict.t qval) :=
  pairs ← first_values (cgi.parse_qs I qs true);
  Some (dict.update I (dict.of_items I pairs) (dict.items kwargs)).

Definition filter_url (I : dict.impl) (location : string) (kwargs : dict.t qval)
  : option string :=
  let parts := urlparse.urlparse location in
  queryargs ← merged I (urlparse.query parts) kwargs;
  let parts := urlparse.set_query parts (urllib.urlencode (dict.items queryargs)) in
  Some (urlparse.urlunparse parts).

End Query.

(** ** Objects, the world and the monad of methods *)

Inductive exn : Type :=
| PromiseError (msg : string)
| AttributeError (msg : string)
| TypeError (msg : string)
| KeyError (key : string)
| IndexError
| Failure (e : string).   (* raised by the transport, by validation or by decoding *)

Inductive outcome (A : Type) : Type :=
| Return (a : A)
| Raise (e : exn).
Arguments Return {A} a.
Arguments Raise {A} e.

(** A transport: the module's default [remoteobjects.http.userAgent], or one
    a caller passes as [http=]. *)
Inductive Http : Type :=
| userAgent
| Transport (id : nat).

Record Request : Type := mkRequest {
  uri : string;
  headers : list (string * string)
}.

Record Response : Type := mkResponse {
  status : Z;
  response_headers : list (string * string)
}.

(** The attributes the superclass [HttpObject] owns: the location, and the
    rest of the instance dictionary (field values, [api_data]). *)
Record HttpObject : Type := mkHttpObject {
  _location : option string;
  __dict__ : dict.t pyval
}.

(** The attributes [PromiseObject] adds. *)
Record PromiseObject : Type := mkPromiseObject {
  base : HttpObject;
  _delivered : bool;
  _http : option Http
}.

(** The mappings ([dict] objects) that raw data consists of, by address. *)
Abbreviation store := (list (dict.t pyval)) (only parsing).

Record World : Type := mkWorld {
  heap : list PromiseObject;       (* the instances, by reference *)
  mappings : store;
  wire : list (Http * Request)     (* the transport requests made so far *)
}.

Definition M (A : Type) : Type := World -> outcome A * World.

Definition ret {A} (a : A) : M A := fun w => (Return a, w).
Definition raise {A} (e : exn) : M A := fun w => (Raise e, w).
Definition bind {A B} (c : M A) (k : A -> M B) : M B :=
  fun w =>
    match c w with
    | (Return a, w') => k a w'
    | (Raise e, w') => (Raise e, w')
    end.

Declare Scope py_scope.
Delimit Scope py_scope with py.
Notation "x <- c ;; k" := (bind c (fun x => k))
  (at level 100, c at next level, right associativity) : py_scope.
Notation "c ;; k" := (bind c (fun _ => k))
  (at level 100, right associativity) : py_scope.
Open Scope py_scope.

Definition load (self : nat) : M PromiseObject :=
  fun w =>
    match heap w !! self with
    | Some o => (Return o, w)
    | None => (Raise (Failure "no such object"), w)
    end.

Definition put (self : nat) (o : PromiseObject) : M unit :=
  fun w => (Return tt, mkWorld (<[self := o]> (heap w)) (mappings w) (wire w)).

(** [object.__new__]: a fresh instance that has no attribute yet. *)
Definition new : M nat :=
  fun w =>
    (Return (length (heap w)),
     mkWorld (heap w ++ [mkPromiseObject (mkHttpObject None []) false None])
             (mappings w) (wire w)).

Definition set_location (self : nat) (u : option string) : M unit :=
  o <- load self;;
  put self (mkPromiseObject (mkHttpObject u (__dict__ (base o)))
                            (_delivered o) (_http o)).

Definition set_dict (self : nat) (d : dict.t pyval) : M unit :=
  o <- load self;;
  put self (mkPromiseObject (mkHttpObject (_location (base o)) d)
                            (_delivered o) (_http o)).

Definition set_delivered (self : nat) (b : bool) : M unit :=
  o <- load self;;
  put self (mkPromiseObject (base o) b (_http o)).

Definition set_http (self : nat) (h : option Http) : M unit :=
  o <- load self;;
  put self (mkPromiseObject (base o) (_delivered o) h).

(** What the two modules take from code that is not theirs: the dict of the
    interpreter, the fields the class declares, the transport, and the
    methods of the superclass [HttpObject]. *)
Record Env : Type := mkEnv {
  dict_impl : dict.impl;
  (** [cls.fields]: the names of the declared fields *)
  fields : list string;
  (** [http.request] on the request: what a transport answers to it,
      given the requests made before; it may raise *)
  request : Http -> list (Http * Request) -> Request -> outcome (Response * string);
  (** [HttpObject.get_request()] *)
  get_request : HttpObject -> Request;
  (** the request [HttpObject.get_response(url, http)] makes for [url] *)
  request_for : string -> Request;
  (** [HttpObject.update_from_response(url, response, content)]: it works
      on the superclass's attributes and on the mappings, and may raise
      after changing them *)
  HttpObject_update_from_response :
    string -> Response -> string -> HttpObject -> store ->
    HttpObject * store * option exn;
  (** [__getitem__] of the classes above [ListObject], when one has it *)
  super_getitem : option (nat -> Z -> M pyval)
}.

(** One transport request: logged, then answered. *)
Definition perform (E : Env) (h : Http) (r : Request) : M (Response * string) :=
  fun w =>
    (request E h (wire w) r,
     mkWorld (heap w) (mappings w) (wire w ++ [(h, r)])).

(** The superclass's [update_from_response] run on instance [self]. *)
Definition super_update_from_response (E : Env) (self : nat)
    (url : string) (response : Response) (content : string) : M unit :=
  fun w =>
    match heap w !! self with
    | None => (Raise (Failure "no such object"), w)
    | Some o =>
        let '(b, st, e) :=
          HttpObject_update_from_response E url response content (base o) (mappings w) in
        let w' := mkWorld (<[self := mkPromiseObject b (_delivered o) (_http o)]> (heap w))
                          st (wire w) in
        match e with
        | Some x => (Raise x, w')
        | None => (Return tt, w')
        end
    end.

(** Modelled from the spec: [HttpObject.__init__] (remoteobjects/http.py and
    dataobject.py are not among the sources).  An instance constructed
    directly is empty and has no location; keyword arguments become its
    field values. *)
Definition HttpObject___init__ (self : nat) (kwargs : dict.t pyval) : M unit :=
  set_location self None;;
  set_dict self kwargs.

(** ** [remoteobjects/promise.py]: the package's [PromiseObject] *)

Module Package.
Section methods.
Context (E : Env).

(** [__init__]: "Initializes a delivered, empty PromiseObject". *)
Definition __init__ (self : nat) (kwargs : dict.t pyval) : M unit :=
  set_delivered self true;;
  set_http self None;;
  HttpObject___init__ self kwargs.

(** [cls()] with keyword arguments [kwargs]. *)
Definition construct (kwargs : dict.t pyval) : M nat :=
  self <- new;;
  __init__ self kwargs;;
  ret self.

(** The classmethod [get(url, http=None)]. *)
Definition get (url : string) (http : option Http) : M nat :=
  self <- construct [];;
  set_location self (Some url);;
  set_http self http;;
  set_delivered self false;;
  ret self.

Definition update_from_response (self : nat) (url : string)
    (response : Response) (content : string) : M unit :=
  super_update_from_response E self url response content;;
  (* Any updating from a response constitutes delivery. *)
  set_delivered self true.

Definition deliver (self : nat) : M unit :=
  o <- load self;;
  if _delivered o then
    raise (PromiseError "instance has already been delivered")
  else
    match _location (base o) with
    | None => raise (PromiseError "Instance has no URL from which to deliver")
    | Some _ =>
        let http := match _http o with None => userAgent | Some h => h end in
        let request := get_request E (base o) in
        rc <- perform E http request;;
        update_from_response self (uri request) rc.1 rc.2
    end.

(** The getter of the property [api_data]. *)
Definition _get_api_data (self : nat) : M pyval :=
  o <- load self;;
  (if negb (_delivered o) then deliver self else ret tt);;
  o <- load self;;
  match dict.get (__dict__ (base o)) "api_data" with
  | Some data => ret data
  | None => raise (KeyError "api_data")
  end.

(** [del self.__dict__[k]] *)
Definition del (d : dict.t pyval) (k : string) : dict.t pyval :=
  base.filter (fun kv => kv.1 <> k) d.

(** The setter of the property [api_data]. *)
Definition _set_api_data (self : nat) (value : pyval) : M unit :=
  o <- load self;;
  set_dict self (dict.set (dict_impl E) (__dict__ (base o)) "api_data" value).

(** The deleter of the property [api_data]; [del] of a key the dict has not
    raises [KeyError]. *)
Definition _del_api_data (self : nat) : M unit :=
  o <- load self;;
  match dict.get (__dict__ (base o)) "api_data" with
  | Some _ => set_dict self (del (__dict__ (base o)) "api_data")
  | None => raise (KeyError "api_data")
  end.

(** The classmethod [statefields], over the list the superclass returns. *)
Definition statefields (super_statefields : list string) : list string :=
  super_statefields ++ ["_delivered"].

Definition update_from_dict (self : nat) (data : pyval) : M unit :=
  match data with
  | PRef _ =>
      o <- load self;;
      (* Clear any local instance field data *)
      let d := fold_left del (fields E) (__dict__ (base o)) in
      (* Update directly to avoid triggering delivery. *)
      set_dict self (dict.set (dict_impl E) d "api_data" data)
  | _ => raise (TypeError "Cannot update from non-dictionary data source")
  end.

(** [filter(kwargs)]: a new undelivered instance at the filtered URL.
    [urlparse.urlparse(None)] raises [AttributeError]. *)
Definition filter (self : nat) (kwargs : dict.t qval) : M nat :=
  o <- load self;;
  match _location (base o) with
  | None => raise (AttributeError "'NoneType' object has no attribute 'find'")
  | Some location =>
      match Query.filter_url (dict_impl E) location kwargs with
      | None => raise IndexError
      | Some newurl => get newurl (_http o)
      end
  end.

(** *** What the data model does with the raw mapping *)

(** [data[k]] as a plain field reads it: [None] where the key is absent. *)
Definition item (st : store) (data : pyval) (k : string) : option pyval :=
  match data with
  | PRef a => d ← st !! a; dict.get d k
  | _ => None
  end.

(** [m[k] = v] on the mapping [m] a caller holds. *)
Definition setitem (m : pyval) (k : string) (v : pyval) : M unit :=
  fun w =>
    match m with
    | PRef a =>
        match mappings w !! a with
        | Some d =>
            (Return tt,
             mkWorld (heap w) (<[a := dict.set (dict_impl E) d k v]> (mappings w)) (wire w))
        | None => (Raise (Failure "no such mapping"), w)
        end
    | _ => (Raise (TypeError "object does not support item assignment"), w)
    end.

(** Modelled from the spec: [DataObject.from_dict] (dataobject.py is not
    among the sources): "builds a new instance, storing raw as its
    canonical raw form", through [update_from_dict]. *)
Definition from_dict (data : pyval) : M nat :=
  self <- construct [];;
  update_from_dict self data;;
  ret self.

(** Modelled from the spec: reading a declared field, [Field.__get__]
    (fields.py is not among the sources): the value the instance already
    holds, else the raw mapping's value for the field, "decoded per-field
    lazily on first read" and kept; a plain field decodes to the value
    itself. *)
Definition Field___get__ (self : nat) (attr : string) : M pyval :=
  o <- load self;;
  match dict.get (__dict__ (base o)) attr with
  | Some v => ret v
  | None =>
      data <- _get_api_data self;;
      fun w =>
        match item (mappings w) data attr with
        | Some v =>
            (o <- load self;;
             set_dict self (dict.set (dict_impl E) (__dict__ (base o)) attr v);;
             ret v) w
        | None => (Return PNone, w)
        end
  end.

(** Reading attribute [attr] of an instance: a declared field through its
    descriptor, [api_data] through its property, anything else from the
    instance dictionary. *)
Definition getattr (self : nat) (attr : string) : M pyval :=
  if decide (attr ∈ fields E) then Field___get__ self attr
  else if decide (attr = "api_data") then _get_api_data self
  else
    o <- load self;;
    match dict.get (__dict__ (base o)) attr with
    | Some v => ret v
    | None => raise (AttributeError attr)
    end.

(** A mapping copied out of the store: what [copy.deepcopy] returns shares
    nothing with the store, so it is given as a tree.  [TCut] stands where
    the nesting is deeper than the copy was asked to go. *)
#[warnings="-register-all"]
Inductive pytree : Type :=
| TNone
| TStr (s : string)
| TInt (n : Z)
| TDict (items : list (string * pytree))
| TCut.

Fixpoint deepcopy (depth : nat) (st : store) (v : pyval) : pytree :=
  match v with
  | PNone => TNone
  | PStr s => TStr s
  | PInt n => TInt n
  | PRef a =>
      match depth with
      | O => TCut
      | S depth' =>
          match st !! a with
          | Some d => TDict ((fun kv => (kv.1, deepcopy depth' st kv.2)) <$> d)
          | None => TCut
          end
      end
  end.

(** [t[k]] *)
Definition tree_item (t : pytree) (k : string) : option pytree :=
  match t with
  | TDict items => dict.get items k
  | _ => None
  end.

(** Modelled from the spec: [DataObject.to_dict] (dataobject.py is not among
    the sources): a new mapping with "every key from the retained raw
    mapping" and, for every declared field the instance holds a value of,
    that value under the field's name, "field-driven keys taking
    precedence".  The raw mapping is copied as deep as it can nest: a store
    of [n] mappings nests [n] deep at most. *)
Definition to_dict (self : nat) : M pytree :=
  data <- _get_api_data self;;
  o <- load self;;
  fun w =>
    let depth := S (length (mappings w)) in
    match deepcopy depth (mappings w) data with
    | TDict raw =>
        (Return
           (TDict
              (fold_left
                 (fun out f =>
                    match dict.get (__dict__ (base o)) f with
                    | Some v =>
                        dict.set (dict_impl E) out f (deepcopy depth (mappings w) v)
                    | None => out
                    end)
                 (fields E) raw)), w)
    | _ => (Raise (TypeError "api_data is not a mapping"), w)
    end.

End methods.
End Package.

(** ** The top-level [promise.py]: [PromiseObject] and [ListObject] *)

Module Legacy.
Section methods.
Context (E : Env).

(** [__init__]: "Initializes a PromiseObject as undelivered". *)
Definition __init__ (self : nat) (kwargs : dict.t pyval) : M unit :=
  set_delivered self false;;
  set_http self None;;
  HttpObject___init__ self kwargs.

Definition construct (kwargs : dict.t pyval) : M nat :=
  self <- new;;
  __init__ self kwargs;;
  ret self.

Definition get (url : string) (http : option Http) : M nat :=
  self <- construct [];;
  set_location self (Some url);;
  set_http self http;;
  ret self.

(** Modelled from the spec: [HttpObject.get_response(url, http)]
    (remoteobjects/http.py is not among the sources): one request for [url]
    through the transport, the default one when [http] is [None]. *)
Definition get_response (url : string) (http : option Http)
  : M (Response * string) :=
  perform E (match http with None => userAgent | Some h => h end) (request_for E url).

Definition update_from_response (self : nat) (url : string)
    (response : Response) (content : string) : M unit :=
  super_update_from_response E self url response content;;
  (* Any updating from a response constitutes delivery. *)
  set_delivered self true.

Definition deliver (self : nat) : M unit :=
  o <- load self;;
  if _delivered o then
    raise (PromiseError "instance has already been delivered")
  else
    match _location (base o) with
    | None => raise (PromiseError "Instance has no URL from which to deliver")
    | Some location =>
        rc <- get_response location (_http o);;
        update_from_response self location rc.1 rc.2
    end.

(** [__getattr__], which Python calls when ordinary lookup misses. *)
Definition __getattr__ (self : nat) (attr : string) : M pyval :=
  o <- load self;;
  if decide (attr ∈ fields E) then
    (* Oops, that's data. Try delivering it? *)
    if negb (_delivered o) then
      deliver self;;
      o <- load self;;
      match dict.get (__dict__ (base o)) attr with
      | Some v => ret v
      | None => raise (AttributeError attr)
      end
    else raise (AttributeError attr)
  else
    (* attr is not a field, or even delivering the object didn't set it. *)
    raise (AttributeError attr).

(** Reading attribute [attr]: the instance dictionary, then [__getattr__]. *)
Definition getattr (self : nat) (attr : string) : M pyval :=
  o <- load self;;
  match dict.get (__dict__ (base o)) attr with
  | Some v => ret v
  | None => __getattr__ self attr
  end.

(** [ListObject.filter] *)
Definition filter (self : nat) (kwargs : dict.t qval) : M nat :=
  o <- load self;;
  match _location (base o) with
  | None => raise (AttributeError "'NoneType' object has no attribute 'find'")
  | Some location =>
      match Query.filter_url (dict_impl E) location kwargs with
      | None => raise IndexError
      | Some newurl => get newurl (_http o)
      end
  end.

(** The key of an indexing expression: [obj[start:stop:step]] or [obj[i]]. *)
Inductive key : Type :=
| Slice (start stop step : option Z)
| Index (i : Z).

(** [ListObject.__getitem__] *)
Definition __getitem__ (self : nat) (k : key) : M (nat + pyval) :=
  match k with
  | Slice start stop _ =>
      match start, stop with
      | Some start, Some stop =>
          r <- filter self (dict.of_items (dict_impl E)
                 [("offset", QInt start); ("limit", QInt (stop - start))]);;
          ret (inl r)
      | _, _ => raise (TypeError "unsupported operand type(s) for -")
      end
  | Index i =>
      match super_getitem E with
      | None => raise (TypeError "object is unsubscriptable except by slices")
      | Some getitem => v <- getitem self i;; ret (inr v)
      end
  end.

End methods.
End Legacy.

(** ** [examples/netflix.py]: the search of the Netflix client *)

Module Netflix.
Section search.
Context (E : Env).

(** The statements of [do_search(opts, args)] that build the search,
    [[
        query = ' '.join(args)
        search = Catalog.get('http://api.netflix.com/catalog/titles').filter(term=query)
    ]]
    [Catalog] inherits [get] and [filter] from the package's
    [PromiseObject]. *)
Definition search (args : list string) : M nat :=
  let query := Str.join " " args in
  catalog <- Package.get "http://api.netflix.com/catalog/titles" None;;
  Package.filter E catalog (dict.of_items (dict_impl E) [("term", QStr query)]).

(** The parameters [Flixject.get_request] hands back to the OAuth request,
    [[
        parts = list(urlparse.urlparse(self._location))
        queryargs = cgi.parse_qs(parts[4], keep_blank_values=True)
        for key, value in queryargs.iteritems():
            orq.set_parameter(key, value[0])
    ]]
    in the order it sets them; [None] where [value[0]] raises. *)
Definition get_request_parameters (location : string)
  : option (list (string * qval)) :=
  Query.first_values
    (cgi.parse_qs (dict_impl E) (urlparse.query (urlparse.urlparse location)) true).

End search.
End Netflix.

(** ** An environment to run the methods in

    A transport that answers 200 and the body ["name=Mollifred"] for
    [http://example.com/whahay] and 404 for any other URL, and a superclass
    that accepts a 200, decodes the body (written as a query string, in place
    of JSON) into a mapping and installs it. *)

Module Demo.

Definition request (h : Http) (sent : list (Http * Request)) (r : Request)
  : outcome (Response * string) :=
  if decide (uri r = "http://example.com/whahay")
  then Return (mkResponse 200 [("content-type", "application/json")], "name=Mollifred")
  else Return (mkResponse 404 [], "").

Definition request_for (url : string) : Request :=
  mkRequest url [("accept", "application/json")].

Definition get_request (o : HttpObject) : Request :=
  request_for (default "" (_location o)).

Definition decode (content : string) : dict.t pyval :=
  (fun kv => (kv.1, PStr kv.2)) <$> cgi.parse_qsl content true.

(** Modelled from the spec: [HttpObject.update_from_response]
    (remoteobjects/http.py is not among the sources): "status must indicate
    success; otherwise fails with a response error", then the body is decoded
    into a raw mapping and installed as the instance's data, here as
    [api_data], the way [PromiseObject.update_from_dict] of the package
    does. *)
Definition update_package (fields : list string) (url : string)
    (response : Response) (content : string) (o : HttpObject) (st : store)
  : HttpObject * store * option exn :=
  if status response =? 200 then
    (mkHttpObject (Some url)
       (dict.set dict.cpython2 (fold_left Package.del fields (__dict__ o))
          "api_data" (PRef (length st))),
     st ++ [decode content], None)
  else (o, st, Some (Failure "404")).

(** Modelled from the spec: the same method for the top-level module, whose
    [__getattr__] looks for the decoded values among the attributes of the
    instance. *)
Definition update_legacy (url : string)
    (response : Response) (content : string) (o : HttpObject) (st : store)
  : HttpObject * store * option exn :=
  if status response =? 200 then
    (mkHttpObject (Some url)
       (dict.update dict.cpython2 (__dict__ o) (decode content)), st, None)
  else (o, st, Some (Failure "404")).

Definition package : Env :=
  mkEnv dict.cpython2 ["name"] request get_request request_for
        (update_package ["name"]) None.

Definition legacy : Env :=
  mkEnv dict.cpython2 ["name"] request get_request request_for update_legacy None.

(** The class [BasicMost] of [test_spooky_action]. *)
Definition basic_most : Env :=
  mkEnv dict.cpython2 ["name"; "value"] request get_request request_for
        (update_package ["name"; "value"]) None.

(** A transport that cannot reach its server. *)
Definition unreachable (h : Http) (sent : list (Http * Request)) (r : Request)
  : outcome (Response * string) :=
  Raise (Failure "connection refused").

Definition offline : Env :=
  mkEnv dict.cpython2 ["name"] unreachable get_request request_for
        (update_package ["name"]) None.

(** A class of the top-level module that declares the fields [name] and
    [value]; the transport's answer brings [name] only. *)
Definition legacy_pair : Env :=
  mkEnv dict.cpython2 ["name"; "value"] request get_request request_for
        update_legacy None.

Definition nothing : World := mkWorld [] [] [].

(** The mappings of [test_spooky_action]: [initial] is at address 1, its
    nested [secret] at address 0. *)
Definition spooky : World :=
  mkWorld []
    [ [("code", PStr "uuddlrlrba")];
      [("name", PStr "foo"); ("value", PStr "4"); ("secret", PRef 0)] ]
    [].

End Demo.

(** ** Facts about dicts *)

Section dict_facts.
Context {V : Type}.
Implicit Types (d : dict.t V) (k : string) (v : V).

Lemma get_None_keys d k : dict.get d k = None <-> k ∉ dict.keys d.
Proof.
  induction d as [|[k' v'] d IH]; simpl.
  - split; [intros _; apply not_elem_of_nil | done].
  - destruct (decide (k' = k)) as [->|Hne].
    + split; [done|]. intros H. destruct H. apply elem_of_cons; by left.
    + rewrite IH. unfold dict.keys. rewrite not_elem_of_cons. simpl.
      split; [intros ?; split; [congruence|done] | by intros [_ ?]].
Qed.

Lemma get_Some_elem_of d k v :
  NoDup (dict.keys d) -> dict.get d k = Some v <-> (k, v) ∈ d.
Proof.
  induction d as [|[k' v'] d IH]; simpl; intros Hnd.
  - split; [done | by intros ?%elem_of_nil].
  - apply NoDup_cons in Hnd as [Hk' Hnd].
    destruct (decide (k' = k)) as [->|Hne].
    + split.
      * intros [= ->]. by left.
      * intros [[= ->]|Hin]%elem_of_cons; [done|].
        destruct Hk'. unfold dict.keys. apply list_elem_of_fmap. by exists (k, v).
    + rewrite IH by done. rewrite elem_of_cons.
      split; [by right | intros [[= ? ?]|?]; [congruence|done]].
Qed.

Lemma get_perm d d' k :
  NoDup (dict.keys d) -> d ≡ₚ d' -> dict.get d' k = dict.get d k.
Proof.
  intros Hnd Hp.
  assert (Hnd' : NoDup (dict.keys d')) by (unfold dict.keys in *; by rewrite <- Hp).
  destruct (dict.get d k) as [v|] eqn:Hg.
  - apply get_Some_elem_of; [done|]. rewrite <- Hp. by apply get_Some_elem_of.
  - apply get_None_keys. apply get_None_keys in Hg.
    unfold dict.keys in *. by rewrite <- Hp.
Qed.

Lemma keys_replace d k v : dict.keys (dict.replace d k v) = dict.keys d.
Proof.
  induction d as [|[k' v'] d IH]; simpl; [done|].
  destruct (decide (k' = k)); simpl; [done|]. unfold dict.keys in *. by f_equal.
Qed.

Lemma get_replace d k v k' :
  dict.get (dict.replace d k v) k' =
  if decide (k = k')
  then match dict.get d k with Some _ => Some v | None => None end
  else dict.get d k'.
Proof.
  induction d as [|[k0 v0] d IH]; simpl.
  - by destruct (decide (k = k')).
  - destruct (decide (k0 = k)) as [->|Hne]; simpl.
    + destruct (decide (k = k')); [done|]. done.
    + destruct (decide (k0 = k')) as [->|Hne'].
      * destruct (decide (k = k')); [congruence | done].
      * done.
Qed.

Lemma get_app d d' k :
  dict.get (d ++ d') k =
  match dict.get d k with Some v => Some v | None => dict.get d' k end.
Proof.
  induction d as [|[k0 v0] d IH]; simpl; [done|].
  by destruct (decide (k0 = k)).
Qed.

Lemma keys_set I d k v :
  NoDup (dict.keys d) -> NoDup (dict.keys (dict.set I d k v)).
Proof.
  intros Hnd. unfold dict.set.
  destruct (dict.get d k) eqn:Hg.
  - by rewrite keys_replace.
  - unfold dict.keys. rewrite (dict.arrange_perm I), fmap_app. simpl.
    apply NoDup_app. split_and!; [done| |apply NoDup_singleton].
    intros x Hx ->%list_elem_of_singleton. by apply get_None_keys in Hg.
Qed.

Lemma get_set I d k v k' :
  NoDup (dict.keys d) ->
  dict.get (dict.set I d k v) k' = if decide (k = k') then Some v else dict.get d k'.
Proof.
  intros Hnd. unfold dict.set.
  destruct (dict.get d k) eqn:Hg.
  - rewrite get_replace, Hg. done.
  - assert (Hnd' : NoDup (dict.keys (d ++ [(k, v)]))).
    { unfold dict.keys. rewrite fmap_app. simpl.
      apply NoDup_app. split_and!; [done| |apply NoDup_singleton].
      intros x Hx ->%list_elem_of_singleton. by apply get_None_keys in Hg. }
    rewrite (get_perm (d ++ [(k, v)])); [|done|symmetry; apply dict.arrange_perm].
    rewrite get_app. simpl.
    destruct (decide (k = k')) as [->|Hne]; [by rewrite Hg|].
    by destruct (dict.get d k').
Qed.

Lemma elem_of_keys d k : k ∈ dict.keys d <-> is_Some (dict.get d k).
Proof.
  rewrite <- not_eq_None_Some, get_None_keys.
  destruct (decide (k ∈ dict.keys d)); naive_solver.
Qed.

(** The keys of a dict after a store: those it had, and the stored one. *)
Lemma elem_of_keys_set I d k v k' :
  NoDup (dict.keys d) ->
  k' ∈ dict.keys (dict.set I d k v) <-> k' = k \/ k' ∈ dict.keys d.
Proof.
  intros Hnd. rewrite !elem_of_keys, get_set by done.
  destruct (decide (k = k')) as [->|Hne].
  - split; [by left | by eexists].
  - split; [by right | by intros [->|?]].
Qed.

Lemma update_spec I d (other : list (string * V)) :
  NoDup (dict.keys d) -> NoDup other.*1 ->
  NoDup (dict.keys (dict.update I d other)) /\
  forall k, dict.get (dict.update I d other) k =
            match dict.get other k with Some v => Some v | None => dict.get d k end.
Proof.
  revert d. induction other as [|[k v] o IH]; intros d Hd Ho.
  - done.
  - simpl in Ho. apply NoDup_cons in Ho as [Hk Ho].
    change (dict.update I d ((k, v) :: o)) with (dict.update I (dict.set I d k v) o).
    destruct (IH (dict.set I d k v)) as [H1 H2]; [by apply keys_set|done|].
    split; [done|]. intros k'. rewrite H2, get_set by done. simpl.
    destruct (decide (k = k')) as [->|Hne]; [|done].
    apply (get_None_keys o) in Hk. by rewrite Hk.
Qed.



End dict_facts.

(** ** The query dict that [filter] builds *)

(** The values the query gives for [k], in the order they are written. *)
Definition values_of (k : string) (pairs : list (string * string)) : list string :=
  (base.filter (fun p => p.1 = k) pairs).*2.

Section query_facts.
Context (I : dict.impl).

Lemma values_of_cons k n v pairs :
  values_of k ((n, v) :: pairs) =
  if decide (n = k) then v :: values_of k pairs else values_of k pairs.
Proof.
  unfold values_of. destruct (decide (n = k)) as [->|Hne].
  - by rewrite filter_cons_True.
  - by rewrite filter_cons_False.
Qed.

(** The first value the query gives for [k] is the first binding of [k]. *)
Lemma head_values_of k pairs : head (values_of k pairs) = dict.get pairs k.
Proof.
  induction pairs as [|[n v] pairs IH]; [done|].
  rewrite values_of_cons. simpl. by destruct (decide (n = k)).
Qed.

Lemma Forall_replace {V} (P : string * V -> Prop) (d : dict.t V) k v :
  Forall P d -> P (k, v) -> Forall P (dict.replace d k v).
Proof.
  intros Hd Hv. induction Hd as [|[k0 v0] d H0 Hd IH]; simpl; [done|].
  destruct (decide (k0 = k)) as [->|Hne]; constructor; done.
Qed.

Lemma parse_qs_step_spec (d : dict.t (list string)) n v :
  NoDup (dict.keys d) -> Forall (fun kv => kv.2 <> []) d ->
  let d' := cgi.parse_qs_step I d (n, v) in
  NoDup (dict.keys d') /\ Forall (fun kv => kv.2 <> []) d' /\
  forall k, dict.get d' k =
            if decide (n = k) then Some (default [] (dict.get d n) ++ [v])
            else dict.get d k.
Proof.
  intros Hnd Hne. unfold cgi.parse_qs_step. simpl.
  destruct (dict.get d n) as [vs|] eqn:Hg; simpl.
  - split_and!.
    + by rewrite keys_replace.
    + apply Forall_replace; [done|]. simpl. by destruct vs.
    + intros k. rewrite get_replace, Hg. done.
  - split_and!.
    + by apply keys_set.
    + unfold dict.set. rewrite Hg, (dict.arrange_perm I).
      apply Forall_app. split; [done|]. by constructor.
    + intros k. by rewrite get_set.
Qed.

Lemma parse_qs_fold pairs (d : dict.t (list string)) :
  NoDup (dict.keys d) -> Forall (fun kv => kv.2 <> []) d ->
  let r := fold_left (cgi.parse_qs_step I) pairs d in
  NoDup (dict.keys r) /\ Forall (fun kv => kv.2 <> []) r /\
  forall k, dict.get r k =
            match dict.get d k, values_of k pairs with
            | Some vs, vs' => Some (vs ++ vs')
            | None, [] => None
            | None, vs' => Some vs'
            end.
Proof.
  revert d. induction pairs as [|[n v] pairs IH]; intros d Hnd Hne; simpl.
  - split_and!; [done..|]. intros k.
    destruct (dict.get d k); [by rewrite app_nil_r | done].
  - destruct (parse_qs_step_spec d n v Hnd Hne) as (H1 & H2 & H3).
    destruct (IH _ H1 H2) as (H4 & H5 & H6).
    split_and!; [done..|]. intros k. rewrite H6, H3, values_of_cons.
    destruct (decide (n = k)) as [->|Hnk].
    + destruct (dict.get d k) as [vs|]; simpl.
      * by rewrite <- app_assoc.
      * done.
    + done.
Qed.

Lemma first_values_spec (d : dict.t (list string)) :
  Forall (fun kv => kv.2 <> []) d ->
  exists l, Query.first_values d = Some l /\ l.*1 = dict.keys d /\
            forall k, dict.get l k = (vs ← dict.get d k; QStr <$> head vs).
Proof.
  unfold Query.first_values, dict.items.
  induction 1 as [|[k0 vs] d Hvs Hd (l & Hl & Hk & Hg)].
  - by exists [].
  - destruct vs as [|v0 vs]; [done|].
    exists ((k0, QStr v0) :: l). simpl. rewrite Hl. simpl.
    split_and!; [done| |].
    + unfold dict.keys in *. simpl. by f_equal.
    + intros k. destruct (decide (k0 = k)); [done|]. apply Hg.
Qed.

(** [queryargs] after the update: a key of [kwargs] has the value [kwargs]
    gives it, any other key the first value the query gives it. *)
Lemma merged_spec qs (kwargs : dict.t qval) :
  NoDup (dict.keys kwargs) ->
  exists q, Query.merged I qs kwargs = Some q /\
            NoDup (dict.keys q) /\
            forall k, dict.get q k =
                      match dict.get kwargs k with
                      | Some v => Some v
                      | None => QStr <$> dict.get (cgi.parse_qsl qs true) k
                      end.
Proof.
  intros Hkw. unfold Query.merged.
  destruct (parse_qs_fold (cgi.parse_qsl qs true) []) as (H1 & H2 & H3);
    [apply NoDup_nil_2 | done |].
  destruct (first_values_spec _ H2) as (l & Hl & Hk & Hg).
  unfold cgi.parse_qs. rewrite Hl. simpl.
  assert (Hndl : NoDup l.*1) by (by rewrite Hk).
  destruct (update_spec I [] l (NoDup_nil_2 : NoDup (dict.keys (@nil (string * qval)))) Hndl)
    as [H4 H5].
  destruct (update_spec I (dict.of_items I l) (dict.items kwargs) H4 Hkw) as [H6 H7].
  eexists. split_and!; [done..|].
  intros k. rewrite H7. unfold dict.items.
  destruct (dict.get kwargs k); [done|].
  unfold dict.of_items. rewrite H5. simpl.
  assert (dict.get l k = QStr <$> dict.get (cgi.parse_qsl qs true) k) as ->.
  { rewrite Hg, H3, <- head_values_of. simpl.
    by destruct (values_of k (cgi.parse_qsl qs true)). }
  by destruct (dict.get (cgi.parse_qsl qs true) k).
Qed.

End query_facts.

(** ** Running the methods *)

Lemma lookup_alloc {A} (l : list A) x : (l ++ [x]) !! length l = Some x.
Proof. by rewrite list_lookup_middle. Qed.

Lemma insert_alloc {A} (l : list A) x y : <[length l := y]> (l ++ [x]) = l ++ [y].
Proof. rewrite insert_app_r_alt by lia. by rewrite Nat.sub_diag. Qed.

Ltac py_unfold :=
  unfold HttpObject___init__, new, set_delivered, set_http, set_location,
    set_dict, bind, load, put, ret, raise, perform, super_update_from_response.

Ltac py_alloc :=
  repeat (progress (simpl; rewrite ?lookup_alloc, ?insert_alloc)).

Lemma Package_construct_run kwargs w :
  Package.construct kwargs w =
  (Return (length (heap w)),
   mkWorld (heap w ++ [mkPromiseObject (mkHttpObject None kwargs) true None])
           (mappings w) (wire w)).
Proof. unfold Package.construct, Package.__init__. py_unfold. by py_alloc. Qed.

Lemma Package_get_run url http w :
  Package.get url http w =
  (Return (length (heap w)),
   mkWorld (heap w ++ [mkPromiseObject (mkHttpObject (Some url) []) false http])
           (mappings w) (wire w)).
Proof.
  unfold Package.get. unfold bind at 1. rewrite Package_construct_run.
  py_unfold. by py_alloc.
Qed.

Lemma Legacy_construct_run kwargs w :
  Legacy.construct kwargs w =
  (Return (length (heap w)),
   mkWorld (heap w ++ [mkPromiseObject (mkHttpObject None kwargs) false None])
           (mappings w) (wire w)).
Proof. unfold Legacy.construct, Legacy.__init__. py_unfold. by py_alloc. Qed.

Lemma Legacy_get_run url http w :
  Legacy.get url http w =
  (Return (length (heap w)),
   mkWorld (heap w ++ [mkPromiseObject (mkHttpObject (Some url) []) false http])
           (mappings w) (wire w)).
Proof.
  unfold Legacy.get. unfold bind at 1. rewrite Legacy_construct_run.
  py_unfold. by py_alloc.
Qed.

(** [deliver] of the package, case by case. *)
Lemma Package_deliver_run E self o w :
  heap w !! self = Some o ->
  Package.deliver E self w =
  if _delivered o then
    (Raise (PromiseError "instance has already been delivered"), w)
  else
    match _location (base o) with
    | None => (Raise (PromiseError "Instance has no URL from which to deliver"), w)
    | Some _ =>
        let http := default userAgent (_http o) in
        let req := get_request E (base o) in
        let sent := wire w ++ [(http, req)] in
        match request E http (wire w) req with
        | Raise e => (Raise e, mkWorld (heap w) (mappings w) sent)
        | Return rc =>
            let '(b, st, e) :=
              HttpObject_update_from_response E (uri req) rc.1 rc.2 (base o) (mappings w) in
            match e with
            | Some x =>
                (Raise x,
                 mkWorld (<[self := mkPromiseObject b false (_http o)]> (heap w)) st sent)
            | None =>
                (Return tt,
                 mkWorld (<[self := mkPromiseObject b true (_http o)]> (heap w)) st sent)
            end
        end
    end.
Proof.
  intros Hself. assert (Hlt := lookup_lt_Some _ _ _ Hself).
  unfold Package.deliver, Package.update_from_response. py_unfold. simpl. rewrite Hself.
  destruct (_delivered o) eqn:Hd; [done|].
  destruct (_location (base o)); [|done].
  unfold default. simpl. destruct (request E _ (wire w) _) as [rc|e]; [|done].
  simpl. rewrite Hself.
  destruct (HttpObject_update_from_response E _ _ _ _ _) as [[b st] [x|]]; simpl.
  - by rewrite Hd.
  - rewrite list_lookup_insert_eq by done. simpl.
    by rewrite list_insert_insert_eq.
Qed.

(** [deliver] of the top-level module, case by case. *)
Lemma Legacy_deliver_run E self o w :
  heap w !! self = Some o ->
  Legacy.deliver E self w =
  if _delivered o then
    (Raise (PromiseError "instance has already been delivered"), w)
  else
    match _location (base o) with
    | None => (Raise (PromiseError "Instance has no URL from which to deliver"), w)
    | Some location =>
        let http := default userAgent (_http o) in
        let req := request_for E location in
        let sent := wire w ++ [(http, req)] in
        match request E http (wire w) req with
        | Raise e => (Raise e, mkWorld (heap w) (mappings w) sent)
        | Return rc =>
            let '(b, st, e) :=
              HttpObject_update_from_response E location rc.1 rc.2 (base o) (mappings w) in
            match e with
            | Some x =>
                (Raise x,
                 mkWorld (<[self := mkPromiseObject b false (_http o)]> (heap w)) st sent)
            | None =>
                (Return tt,
                 mkWorld (<[self := mkPromiseObject b true (_http o)]> (heap w)) st sent)
            end
        end
    end.
Proof.
  intros Hself. assert (Hlt := lookup_lt_Some _ _ _ Hself).
  unfold Legacy.deliver, Legacy.update_from_response, Legacy.get_response.
  py_unfold. simpl. rewrite Hself.
  destruct (_delivered o) eqn:Hd; [done|].
  destruct (_location (base o)); [|done].
  unfold default. simpl. destruct (request E _ (wire w) _) as [rc|e]; [|done].
  simpl. rewrite Hself.
  destruct (HttpObject_update_from_response E _ _ _ _ _) as [[b st] [x|]]; simpl.
  - by rewrite Hd.
  - rewrite list_lookup_insert_eq by done. simpl.
    by rewrite list_insert_insert_eq.
Qed.

(** The instance [self] of world [w] is delivered, is undelivered. *)
Definition delivered_in (w : World) (self : nat) : Prop :=
  exists o, heap w !! self = Some o /\ _delivered o = true.

Definition undelivered_in (w : World) (self : nat) : Prop :=
  exists o, heap w !! self = Some o /\ _delivered o = false.

(** Reading a declared field of an undelivered instance of the package that
    holds no value for it: one request, then what the transport and the
    superclass make of it. *)
Lemma Package_field_read E self o w f u :
  heap w !! self = Some o ->
  _delivered o = false ->
  _location (base o) = Some u ->
  dict.get (__dict__ (base o)) f = None ->
  f ∈ fields E ->
  let http := default userAgent (_http o) in
  let req := get_request E (base o) in
  exists r w2,
    Package.getattr E self f w = (r, w2) /\
    wire w2 = wire w ++ [(http, req)] /\
    match request E http (wire w) req with
    | Raise e => r = Raise e /\ heap w2 = heap w
    | Return rc =>
        let '(b, st, x) :=
          HttpObject_update_from_response E (uri req) rc.1 rc.2 (base o) (mappings w) in
        match x with
        | Some x => r = Raise x /\ heap w2 !! self = Some (mkPromiseObject b false (_http o))
        | None => exists o2, heap w2 !! self = Some o2 /\ _delivered o2 = true
        end
    end.
Proof.
  intros Hself Hd Hloc Hmiss Hf http req.
  assert (Hlt := lookup_lt_Some _ _ _ Hself).
  unfold Package.getattr. rewrite decide_True by done.
  unfold Package.Field___get__, Package._get_api_data.
  unfold bind at 1. unfold load at 1. rewrite Hself, Hmiss.
  unfold bind at 1. unfold bind at 1. unfold load at 1. rewrite Hself.
  unfold bind at 1. rewrite Hd. cbn [negb].
  rewrite (Package_deliver_run E self o w Hself), Hd, Hloc.
  fold http req. cbv zeta.
  destruct (request E http (wire w) req) as [rc|e]; [|by eexists _, _].
  destruct (HttpObject_update_from_response E _ _ _ _ _) as [[b st] [x|]].
  - eexists _, _. do 2 (split; [done|]). split; [done|]. simpl.
    by rewrite list_lookup_insert_eq.
  - unfold bind at 1. unfold load at 1. simpl heap.
    rewrite list_lookup_insert_eq by done. simpl.
    destruct (dict.get (__dict__ b) "api_data") as [data|]; simpl.
    + destruct (Package.item st data f) as [v|]; simpl.
      * py_unfold. simpl.
        repeat (rewrite list_lookup_insert_eq by (rewrite ?length_insert; done); simpl).
        eexists _, _. do 2 (split; [done|]). simpl.
        eexists. rewrite list_lookup_insert_eq; [done|]. by rewrite length_insert.
      * eexists _, _. do 2 (split; [done|]). simpl.
        eexists. by rewrite list_lookup_insert_eq.
    + eexists _, _. do 2 (split; [done|]). simpl.
      eexists. by rewrite list_lookup_insert_eq.
Qed.

(** The same for [__getattr__] of the top-level module. *)
Lemma Legacy_field_read E self o w f u :
  heap w !! self = Some o ->
  _delivered o = false ->
  _location (base o) = Some u ->
  f ∈ fields E ->
  let http := default userAgent (_http o) in
  let req := request_for E u in
  exists r w2,
    Legacy.__getattr__ E self f w = (r, w2) /\
    wire w2 = wire w ++ [(http, req)] /\
    match request E http (wire w) req with
    | Raise e => r = Raise e /\ heap w2 = heap w
    | Return rc =>
        let '(b, st, x) :=
          HttpObject_update_from_response E u rc.1 rc.2 (base o) (mappings w) in
        match x with
        | Some x => r = Raise x /\ heap w2 !! self = Some (mkPromiseObject b false (_http o))
        | None => exists o2, heap w2 !! self = Some o2 /\ _delivered o2 = true
        end
    end.
Proof.
  intros Hself Hd Hloc Hf http req.
  assert (Hlt := lookup_lt_Some _ _ _ Hself).
  unfold Legacy.__getattr__.
  unfold bind at 1. unfold load at 1. rewrite Hself.
  rewrite decide_True by done. rewrite Hd. cbn [negb].
  unfold bind at 1.
  rewrite (Legacy_deliver_run E self o w Hself), Hd, Hloc.
  fold http req. cbv zeta.
  destruct (request E http (wire w) req) as [rc|e]; [|by eexists _, _].
  destruct (HttpObject_update_from_response E _ _ _ _ _) as [[b st] [x|]].
  - eexists _, _. do 2 (split; [done|]). split; [done|]. simpl.
    by rewrite list_lookup_insert_eq.
  - unfold bind at 1. unfold load at 1. simpl heap.
    rewrite list_lookup_insert_eq by done. simpl.
    destruct (dict.get (__dict__ b) f) as [v|]; simpl.
    + eexists _, _. do 2 (split; [done|]). simpl.
      eexists. by rewrite list_lookup_insert_eq.
    + eexists _, _. do 2 (split; [done|]). simpl.
      eexists. by rewrite list_lookup_insert_eq.
Qed.

Lemma Legacy_getattr_miss E self o w f :
  heap w !! self = Some o ->
  dict.get (__dict__ (base o)) f = None ->
  Legacy.getattr E self f w = Legacy.__getattr__ E self f w.
Proof.
  intros Hself Hmiss. unfold Legacy.getattr.
  unfold bind at 1. unfold load at 1. by rewrite Hself, Hmiss.
Qed.

(** ** Claims about the delivery state machine *)

(** What [get(u, http=h)] followed by a first read of field [f] does, for a
    module whose [get] and attribute read are [get] and [getattr], and which
    sends the request [req] and hands the superclass the URL [url]: the
    read makes the one request; the instance is delivered after it when the
    transport answers and the superclass accepts the answer; when the
    transport raises, or the superclass refuses the answer, the reader gets
    that failure and the instance is undelivered as before. *)
Definition lazy_get_spec (get : string -> option Http -> M nat)
    (getattr : nat -> M pyval) (req : Request) (url : string)
    (E : Env) (u : string) (h : option Http) (w : World) : Prop :=
  let self := length (heap w) in
  let born := mkPromiseObject (mkHttpObject (Some u) []) false h in
  let http := default userAgent h in
  exists w1,
    get u h w = (Return self, w1) /\
    heap w1 !! self = Some born /\
    (forall i, (i < self)%nat -> heap w1 !! i = heap w !! i) /\
    wire w1 = wire w /\
    exists r w2,
      getattr self w1 = (r, w2) /\
      wire w2 = wire w ++ [(http, req)] /\
      (forall rc,
          request E http (wire w) req = Return rc ->
          (HttpObject_update_from_response E url rc.1 rc.2 (base born) (mappings w)).2 = None ->
          delivered_in w2 self) /\
      (forall e,
          request E http (wire w) req = Raise e ->
          r = Raise e /\ undelivered_in w2 self) /\
      (forall rc x,
          request E http (wire w) req = Return rc ->
          (HttpObject_update_from_response E url rc.1 rc.2 (base born) (mappings w)).2
          = Some x ->
          r = Raise x /\ undelivered_in w2 self).

(** C1 (amended): for every URL [u] and transport [h], [get(u, http=h)]
    returns a new instance with [_delivered = False], [_location = u] and
    [_http = h] and makes no transport request; the first read of a declared
    field on it makes exactly one transport request, and leaves the instance
    delivered when the transport answers and the superclass accepts the
    response; otherwise the instance stays undelivered and the failure (what
    the transport raised, or what the superclass raised on the response)
    reaches the reader.  Both modules. *)
Theorem get_then_first_read E u h w f :
  f ∈ fields E ->
  lazy_get_spec Package.get (fun self => Package.getattr E self f)
    (get_request E (mkHttpObject (Some u) []))
    (uri (get_request E (mkHttpObject (Some u) []))) E u h w /\
  lazy_get_spec Legacy.get (fun self => Legacy.getattr E self f)
    (request_for E u) u E u h w.
Proof.
  intros Hf.
  set (born := mkPromiseObject (mkHttpObject (Some u) []) false h).
  set (w1 := mkWorld (heap w ++ [born]) (mappings w) (wire w)).
  assert (Hself : heap w1 !! length (heap w) = Some born) by apply lookup_alloc.
  assert (Hold : forall i, (i < length (heap w))%nat -> heap w1 !! i = heap w !! i).
  { intros i Hi. simpl. by rewrite lookup_app_l. }
  split.
  - exists w1. rewrite Package_get_run. do 4 (split; [done|]).
    destruct (Package_field_read E _ born w1 f u Hself eq_refl eq_refl eq_refl Hf)
      as (r & w2 & Hrun & Hwire & Hcase).
    exists r, w2. do 2 (split; [done|]). simpl in Hcase. split_and!.
    + intros rc Hrc Hacc. rewrite Hrc in Hcase.
      destruct (HttpObject_update_from_response E _ _ _ _ _) as [[b st] [x|]]; [done|].
      exact Hcase.
    + intros e Hrc. rewrite Hrc in Hcase. destruct Hcase as [-> Hheap].
      split; [done|]. exists born. by rewrite Hheap.
    + intros rc x Hrc Hacc. rewrite Hrc in Hcase.
      destruct (HttpObject_update_from_response E _ _ _ _ _) as [[b st] [y|]];
        [|done].
      injection Hacc as ->. destruct Hcase as [-> Hheap].
      split; [done|]. by eexists.
  - exists w1. rewrite Legacy_get_run. do 4 (split; [done|]).
    destruct (Legacy_field_read E _ born w1 f u Hself eq_refl eq_refl Hf)
      as (r & w2 & Hrun & Hwire & Hcase).
    exists r, w2. rewrite (Legacy_getattr_miss E _ born) by done.
    do 2 (split; [done|]). simpl in Hcase. split_and!.
    + intros rc Hrc Hacc. rewrite Hrc in Hcase.
      destruct (HttpObject_update_from_response E _ _ _ _ _) as [[b st] [x|]]; [done|].
      exact Hcase.
    + intros e Hrc. rewrite Hrc in Hcase. destruct Hcase as [-> Hheap].
      split; [done|]. exists born. by rewrite Hheap.
    + intros rc x Hrc Hacc. rewrite Hrc in Hcase.
      destruct (HttpObject_update_from_response E _ _ _ _ _) as [[b st] [y|]];
        [|done].
      injection Hacc as ->. destruct Hcase as [-> Hheap].
      split; [done|]. by eexists.
Qed.

Lemma get_then_first_read_witness :
  "name" ∈ fields Demo.package /\
  (lazy_get_spec Package.get (fun self => Package.getattr Demo.package self "name")
     (get_request Demo.package (mkHttpObject (Some "http://example.com/whahay") []))
     "http://example.com/whahay" Demo.package "http://example.com/whahay"
     (Some (Transport 1)) Demo.nothing /\
   lazy_get_spec Legacy.get (fun self => Legacy.getattr Demo.package self "name")
     (request_for Demo.package "http://example.com/whahay")
     "http://example.com/whahay" Demo.package "http://example.com/whahay"
     (Some (Transport 1)) Demo.nothing).
Proof.
  split.
  - apply list_elem_of_here.
  - apply (get_then_first_read Demo.package "http://example.com/whahay"
             (Some (Transport 1)) Demo.nothing "name").
    apply list_elem_of_here.
Defined.

(** C1 as stated fails where the response is refused: the transport of
    [Demo] answers 404 for [http://example.com/gone]; the first read of
    [name] makes its one request and leaves the instance undelivered. *)
Lemma first_read_refused_stays_undelivered :
  let w1 := (Package.get "http://example.com/gone" None Demo.nothing).2 in
  let rw := Package.getattr Demo.package 0 "name" w1 in
  "name" ∈ fields Demo.package /\
  rw.1 = Raise (Failure "404") /\
  wire rw.2 = [(userAgent, Demo.request_for "http://example.com/gone")] /\
  ~ delivered_in rw.2 0.
Proof.
  cbv zeta. split; [apply list_elem_of_here|].
  split; [by vm_compute|]. split; [by vm_compute|].
  intros (o & Ho & Hd). vm_compute in Ho. injection Ho as <-. discriminate Hd.
Qed.

(** [deliver] refuses: it raises a [PromiseError] and leaves the world (the
    instances, the mappings, the requests made) as it found it. *)
Definition refused (deliver : nat -> M unit) (self : nat) (w : World) : Prop :=
  exists msg, deliver self w = (Raise (PromiseError msg), w).

(** C2: [deliver()] on an instance that is already delivered, or that has no
    location, raises a [PromiseError] before any transport request and
    changes nothing.  Both modules. *)
Theorem deliver_guards E self o w :
  heap w !! self = Some o ->
  _delivered o = true \/ _location (base o) = None ->
  refused (Package.deliver E) self w /\ refused (Legacy.deliver E) self w.
Proof.
  intros Hself Hcase. unfold refused.
  rewrite (Package_deliver_run E self o w Hself), (Legacy_deliver_run E self o w Hself).
  destruct (_delivered o); [by split; eexists|].
  destruct Hcase as [?| ->]; [done|]. by split; eexists.
Qed.

Lemma deliver_guards_witness :
  let w := (Package.construct [] Demo.nothing).2 in
  heap w !! 0%nat = Some (mkPromiseObject (mkHttpObject None []) true None) /\
  (_delivered (mkPromiseObject (mkHttpObject None []) true None) = true \/
   _location (base (mkPromiseObject (mkHttpObject None []) true None)) = None) /\
  refused (Package.deliver Demo.package) 0 w /\
  refused (Legacy.deliver Demo.package) 0 w.
Proof.
  cbv zeta. split; [reflexivity|]. split; [left; reflexivity|].
  apply (deliver_guards Demo.package 0
           (mkPromiseObject (mkHttpObject None []) true None)).
  - reflexivity.
  - left. reflexivity.
Defined.

(** After [deliver] has failed behind the transport call, a second
    [deliver] is not turned away as a redelivery. *)
Definition open_to_retry (deliver : nat -> M unit) (self : nat) (w : World) : Prop :=
  undelivered_in w self /\
  deliver self w <> (Raise (PromiseError "instance has already been delivered"), w).

Lemma wire_grows (w : World) hp st q : w <> mkWorld hp st (wire w ++ [q]).
Proof.
  intros Heq. apply (f_equal (fun w => length (wire w))) in Heq.
  simpl in Heq. rewrite length_app in Heq. simpl in Heq. lia.
Qed.

Lemma Package_open_to_retry E self o w :
  heap w !! self = Some o -> _delivered o = false ->
  open_to_retry (Package.deliver E) self w.
Proof.
  intros Hself Hd. split; [by exists o|].
  rewrite (Package_deliver_run E self o w Hself), Hd.
  destruct (_location (base o)); [|done]. cbv zeta.
  destruct (request E _ _ _) as [rc|e].
  - destruct (HttpObject_update_from_response E _ _ _ _ _) as [[b st] [x|]];
      intros [= _ Hw]; symmetry in Hw; by apply wire_grows in Hw.
  - intros [= _ Hw]. symmetry in Hw. by apply wire_grows in Hw.
Qed.

Lemma Legacy_open_to_retry E self o w :
  heap w !! self = Some o -> _delivered o = false ->
  open_to_retry (Legacy.deliver E) self w.
Proof.
  intros Hself Hd. split; [by exists o|].
  rewrite (Legacy_deliver_run E self o w Hself), Hd.
  destruct (_location (base o)); [|done]. cbv zeta.
  destruct (request E _ _ _) as [rc|e].
  - destruct (HttpObject_update_from_response E _ _ _ _ _) as [[b st] [x|]];
      intros [= _ Hw]; symmetry in Hw; by apply wire_grows in Hw.
  - intros [= _ Hw]. symmetry in Hw. by apply wire_grows in Hw.
Qed.

(** What a delivery that fails behind the transport call leaves: the
    exception [x] of the superclass, the request on the wire, and an instance
    that is still undelivered and open to a retry. *)
Definition failed_delivery (deliver : nat -> M unit) (self : nat) (w : World)
    (sent : Http * Request) (x : exn) : Prop :=
  exists w',
    deliver self w = (Raise x, w') /\
    wire w' = wire w ++ [sent] /\
    open_to_retry deliver self w'.

(** C3: when the transport has answered and the superclass's
    [update_from_response] raises (response validation, body decoding), the
    instance stays undelivered, [_delivered] being set only after the update
    has returned, and a later [deliver()] is not refused as a redelivery.
    Both modules. *)
Theorem failed_delivery_stays_undelivered E self o w u rc rc' b st x b' st' x' :
  heap w !! self = Some o ->
  _delivered o = false ->
  _location (base o) = Some u ->
  let http := default userAgent (_http o) in
  request E http (wire w) (get_request E (base o)) = Return rc ->
  HttpObject_update_from_response E (uri (get_request E (base o))) rc.1 rc.2
    (base o) (mappings w) = (b, st, Some x) ->
  request E http (wire w) (request_for E u) = Return rc' ->
  HttpObject_update_from_response E u rc'.1 rc'.2 (base o) (mappings w)
    = (b', st', Some x') ->
  failed_delivery (Package.deliver E) self w (http, get_request E (base o)) x /\
  failed_delivery (Legacy.deliver E) self w (http, request_for E u) x'.
Proof.
  intros Hself Hd Hloc http Hrc Hup Hrc' Hup'.
  assert (Hlt := lookup_lt_Some _ _ _ Hself).
  unfold failed_delivery. split.
  - rewrite (Package_deliver_run E self o w Hself), Hd, Hloc. cbv zeta.
    fold http. rewrite Hrc, Hup. eexists. do 2 (split; [done|]).
    apply (Package_open_to_retry E self (mkPromiseObject b false (_http o)));
      [simpl; by apply list_lookup_insert_eq | done].
  - rewrite (Legacy_deliver_run E self o w Hself), Hd, Hloc. cbv zeta.
    fold http. rewrite Hrc', Hup'. eexists. do 2 (split; [done|]).
    apply (Legacy_open_to_retry E self (mkPromiseObject b' false (_http o)));
      [simpl; by apply list_lookup_insert_eq | done].
Qed.

Lemma failed_delivery_stays_undelivered_witness :
  let u := "http://example.com/gone" in
  let o := mkPromiseObject (mkHttpObject (Some u) []) false None in
  let w := (Package.get u None Demo.nothing).2 in
  let x := Failure "404" in
  heap w !! 0%nat = Some o /\
  failed_delivery (Package.deliver Demo.package) 0 w
    (userAgent, get_request Demo.package (base o)) x /\
  failed_delivery (Legacy.deliver Demo.package) 0 w
    (userAgent, request_for Demo.package u) x.
Proof.
  cbv zeta. split; [reflexivity|].
  apply (failed_delivery_stays_undelivered Demo.package 0
           (mkPromiseObject (mkHttpObject (Some "http://example.com/gone") []) false None)
           (Package.get "http://example.com/gone" None Demo.nothing).2
           "http://example.com/gone"
           (mkResponse 404 [], "") (mkResponse 404 [], "")
           (mkHttpObject (Some "http://example.com/gone") []) [] (Failure "404")
           (mkHttpObject (Some "http://example.com/gone") []) [] (Failure "404"));
    reflexivity.
Defined.

(** Reading any attribute of a delivered instance of the package makes no
    request. *)
Lemma Package_read_delivered E self o w f :
  heap w !! self = Some o -> _delivered o = true ->
  exists r w2, Package.getattr E self f w = (r, w2) /\
               wire w2 = wire w /\ mappings w2 = mappings w.
Proof.
  intros Hself Hd. assert (Hlt := lookup_lt_Some _ _ _ Hself).
  assert (Hapi : exists r, Package._get_api_data E self w = (r, w) /\
            forall data, r = Return data ->
                         dict.get (__dict__ (base o)) "api_data" = Some data).
  { unfold Package._get_api_data. py_unfold. rewrite Hself, Hd. simpl.
    rewrite Hself. destruct (dict.get (__dict__ (base o)) "api_data");
      eexists; (split; [done|]); by intros ? [= <-]. }
  destruct Hapi as (ra & Hapi & _).
  unfold Package.getattr. destruct (decide (f ∈ fields E)) as [Hin|Hnin].
  - unfold Package.Field___get__. unfold bind at 1. unfold load at 1.
    rewrite Hself.
    destruct (dict.get (__dict__ (base o)) f); [by eexists _, _; split_and!|].
    unfold bind at 1. rewrite Hapi.
    destruct ra as [data|e]; [|by eexists _, _; split_and!].
    destruct (Package.item (mappings w) data f); [|by eexists _, _; split_and!].
    py_unfold. repeat (rewrite Hself; simpl). by eexists _, _; split_and!.
  - destruct (decide (f = "api_data")) as [Heq|Hne].
    + rewrite Hapi. by eexists _, _; split_and!.
    + py_unfold. rewrite Hself.
      destruct (dict.get (__dict__ (base o)) f); by eexists _, _; split_and!.
Qed.

(** C4 (amended): a [PromiseObject] of [remoteobjects/promise.py]
    constructed directly is delivered and empty, and no read of an attribute
    of it makes a transport request; a [PromiseObject] of the top-level
    [promise.py] constructed directly is undelivered and has no location, so
    a read of an attribute it does not hold raises (a [PromiseError] for a
    declared field) and makes no transport request either. *)
Theorem constructed_directly E w f :
  let self := length (heap w) in
  (exists w1,
      Package.construct [] w = (Return self, w1) /\
      heap w1 !! self = Some (mkPromiseObject (mkHttpObject None []) true None) /\
      wire w1 = wire w /\
      exists r w2, Package.getattr E self f w1 = (r, w2) /\ wire w2 = wire w) /\
  (exists w1,
      Legacy.construct [] w = (Return self, w1) /\
      heap w1 !! self = Some (mkPromiseObject (mkHttpObject None []) false None) /\
      wire w1 = wire w /\
      Legacy.getattr E self f w1 =
        (Raise (if decide (f ∈ fields E)
                then PromiseError "Instance has no URL from which to deliver"
                else AttributeError f), w1)).
Proof.
  cbv zeta. split.
  - rewrite Package_construct_run.
    set (o := mkPromiseObject (mkHttpObject None []) true None).
    set (w1 := mkWorld (heap w ++ [o]) (mappings w) (wire w)).
    assert (Hself : heap w1 !! length (heap w) = Some o) by apply lookup_alloc.
    exists w1. do 3 (split; [done|]).
    destruct (Package_read_delivered E _ o w1 f Hself eq_refl)
      as (r & w2 & Hr & Hw & _).
    by exists r, w2.
  - rewrite Legacy_construct_run.
    set (o := mkPromiseObject (mkHttpObject None []) false None).
    set (w1 := mkWorld (heap w ++ [o]) (mappings w) (wire w)).
    assert (Hself : heap w1 !! length (heap w) = Some o) by apply lookup_alloc.
    exists w1. do 3 (split; [done|]).
    rewrite (Legacy_getattr_miss E _ o w1 f Hself eq_refl).
    unfold Legacy.__getattr__. unfold bind at 1. unfold load at 1.
    rewrite Hself. destruct (decide (f ∈ fields E)) as [Hin|Hnin]; [|done].
    simpl. unfold bind at 1.
    by rewrite (Legacy_deliver_run E _ o w1 Hself).
Qed.

(** C4 as stated fails in the top-level module: its constructor leaves the
    new instance undelivered. *)
Lemma legacy_constructed_undelivered :
  let w1 := (Legacy.construct [] Demo.nothing).2 in
  heap w1 !! 0%nat = Some (mkPromiseObject (mkHttpObject None []) false None) /\
  ~ delivered_in w1 0.
Proof.
  cbv zeta. split; [reflexivity|].
  intros (o & Ho & Hd). vm_compute in Ho. injection Ho as <-. discriminate Hd.
Qed.


Lemma Package_deliver_returns E self o w w' :
  heap w !! self = Some o ->
  Package.deliver E self w = (Return tt, w') ->
  exists b, heap w' !! self = Some (mkPromiseObject b true (_http o)).
Proof.
  intros Hself. assert (Hlt := lookup_lt_Some _ _ _ Hself).
  rewrite (Package_deliver_run E self o w Hself).
  destruct (_delivered o); [done|]. destruct (_location (base o)); [|done].
  cbv zeta. destruct (request E _ _ _); [|done].
  destruct (HttpObject_update_from_response E _ _ _ _ _) as [[b st] [x|]]; [done|].
  intros [= <-]. exists b. simpl. by apply list_lookup_insert_eq.
Qed.

Lemma Legacy_deliver_returns E self o w w' :
  heap w !! self = Some o ->
  Legacy.deliver E self w = (Return tt, w') ->
  exists b, heap w' !! self = Some (mkPromiseObject b true (_http o)).
Proof.
  intros Hself. assert (Hlt := lookup_lt_Some _ _ _ Hself).
  rewrite (Legacy_deliver_run E self o w Hself).
  destruct (_delivered o); [done|]. destruct (_location (base o)); [|done].
  cbv zeta. destruct (request E _ _ _); [|done].
  destruct (HttpObject_update_from_response E _ _ _ _ _) as [[b st] [x|]]; [done|].
  intros [= <-]. exists b. simpl. by apply list_lookup_insert_eq.
Qed.







(** ** Claims about [filter] and slicing *)

(** [filter] never fails on the query: every value list [parse_qs] builds
    has a first element. *)
Lemma merged_total I qs (kwargs : dict.t qval) : is_Some (Query.merged I qs kwargs).
Proof.
  unfold Query.merged.
  destruct (parse_qs_fold I (cgi.parse_qsl qs true) []) as (H1 & H2 & H3);
    [apply NoDup_nil_2 | done |].
  destruct (first_values_spec _ H2) as (l & Hl & _).
  unfold cgi.parse_qs. rewrite Hl. by eexists.
Qed.

Lemma filter_url_merged I u (kwargs : dict.t qval) :
  exists q,
    Query.merged I (urlparse.query (urlparse.urlparse u)) kwargs = Some q /\
    Query.filter_url I u kwargs =
      Some (urlparse.urlunparse
              (urlparse.set_query (urlparse.urlparse u)
                 (urllib.urlencode (dict.items q)))).
Proof.
  destruct (merged_total I (urlparse.query (urlparse.urlparse u)) kwargs) as [q Hq].
  exists q. split; [done|]. unfold Query.filter_url. by rewrite Hq.
Qed.

(** What [filter] on receiver [self] (the instance [o], at URL [u]) does to
    world [w]: it returns a reference [new] that was not in use, to an
    undelivered instance with the receiver's transport, at the URL put
    together again from the parts of [u] with the query replaced by the
    encoded merged query [q]: the dict that gives a key of [kwargs] the
    value [kwargs] has for it, and any other key of the old query the first
    value it has there; every instance of [w] is as it was; the mappings
    and the requests made are as they were. *)
Definition derives (filter : M nat) (I : dict.impl) (self : nat)
    (o : PromiseObject) (u : string) (kwargs : dict.t qval) (w : World) : Prop :=
  exists new w' q,
    filter w = (Return new, w') /\
    Query.merged I (urlparse.query (urlparse.urlparse u)) kwargs = Some q /\
    (NoDup (dict.keys kwargs) ->
     NoDup (dict.keys q) /\
     forall k, dict.get q k =
               match dict.get kwargs k with
               | Some v => Some v
               | None =>
                   QStr <$> dict.get
                              (cgi.parse_qsl (urlparse.query (urlparse.urlparse u)) true) k
               end) /\
    new <> self /\
    heap w !! new = None /\
    heap w' !! new =
      Some (mkPromiseObject
              (mkHttpObject
                 (Some (urlparse.urlunparse
                          (urlparse.set_query (urlparse.urlparse u)
                             (urllib.urlencode (dict.items q))))) [])
              false (_http o)) /\
    (forall i, i <> new -> heap w' !! i = heap w !! i) /\
    mappings w' = mappings w /\
    wire w' = wire w.

Lemma get_derives url http w :
  let new := length (heap w) in
  let w' := mkWorld (heap w ++ [mkPromiseObject (mkHttpObject (Some url) []) false http])
                    (mappings w) (wire w) in
  heap w !! new = None /\
  heap w' !! new = Some (mkPromiseObject (mkHttpObject (Some url) []) false http) /\
  (forall i, i <> new -> heap w' !! i = heap w !! i).
Proof.
  cbv zeta. split_and!.
  - by apply lookup_ge_None_2.
  - apply lookup_alloc.
  - intros i Hi. simpl. destruct (decide (i < length (heap w))%nat).
    + by rewrite lookup_app_l.
    + rewrite !lookup_ge_None_2; [done|lia|]. rewrite length_app. simpl. lia.
Qed.

(** [filter], case by case. *)
Lemma Package_filter_run E self o w (kwargs : dict.t qval) :
  heap w !! self = Some o ->
  Package.filter E self kwargs w =
  match _location (base o) with
  | None => (Raise (AttributeError "'NoneType' object has no attribute 'find'"), w)
  | Some u =>
      match Query.filter_url (dict_impl E) u kwargs with
      | None => (Raise IndexError, w)
      | Some newurl =>
          (Return (length (heap w)),
           mkWorld (heap w ++ [mkPromiseObject (mkHttpObject (Some newurl) []) false
                                 (_http o)])
                   (mappings w) (wire w))
      end
  end.
Proof.
  intros Hself. unfold Package.filter. unfold bind, load. rewrite Hself.
  destruct (_location (base o)) as [u|]; [|done].
  destruct (Query.filter_url (dict_impl E) u kwargs); [|done].
  apply Package_get_run.
Qed.

Lemma Legacy_filter_run E self o w (kwargs : dict.t qval) :
  heap w !! self = Some o ->
  Legacy.filter E self kwargs w =
  match _location (base o) with
  | None => (Raise (AttributeError "'NoneType' object has no attribute 'find'"), w)
  | Some u =>
      match Query.filter_url (dict_impl E) u kwargs with
      | None => (Raise IndexError, w)
      | Some newurl =>
          (Return (length (heap w)),
           mkWorld (heap w ++ [mkPromiseObject (mkHttpObject (Some newurl) []) false
                                 (_http o)])
                   (mappings w) (wire w))
      end
  end.
Proof.
  intros Hself. unfold Legacy.filter. unfold bind, load. rewrite Hself.
  destruct (_location (base o)) as [u|]; [|done].
  destruct (Query.filter_url (dict_impl E) u kwargs); [|done].
  apply Legacy_get_run.
Qed.

(** C5: [a.filter(p)] never mutates [a]: every instance, [a] among them,
    keeps its location, its delivered state and its fields; no delivery and
    no transport request happens; for an [a] that has a location the result
    is a distinct, new, undelivered instance with the transport of [a], at
    the merged-query URL: the URL of [a] with its query replaced by the
    encoding of the old query's parameters overridden by [p]; for an [a]
    that has no location [filter] raises.  Both modules. *)
Theorem filter_frame E self o w (kwargs : dict.t qval) :
  heap w !! self = Some o ->
  match _location (base o) with
  | Some u =>
      derives (Package.filter E self kwargs) (dict_impl E) self o u kwargs w /\
      derives (Legacy.filter E self kwargs) (dict_impl E) self o u kwargs w
  | None =>
      (exists e, Package.filter E self kwargs w = (Raise e, w)) /\
      (exists e, Legacy.filter E self kwargs w = (Raise e, w))
  end.
Proof.
  intros Hself. assert (Hlt := lookup_lt_Some _ _ _ Hself).
  unfold derives.
  rewrite (Package_filter_run E self o w kwargs Hself),
          (Legacy_filter_run E self o w kwargs Hself).
  destruct (_location (base o)) as [u|]; [|by split; eexists].
  destruct (filter_url_merged (dict_impl E) u kwargs) as (q & Hq & ->).
  destruct (get_derives
              (urlparse.urlunparse
                 (urlparse.set_query (urlparse.urlparse u)
                    (urllib.urlencode (dict.items q)))) (_http o) w)
    as (H1 & H2 & H3).
  assert (Hspec : NoDup (dict.keys kwargs) ->
            NoDup (dict.keys q) /\
            forall k, dict.get q k =
                      match dict.get kwargs k with
                      | Some v => Some v
                      | None =>
                          QStr <$> dict.get
                                     (cgi.parse_qsl
                                        (urlparse.query (urlparse.urlparse u)) true) k
                      end).
  { intros Hkw.
    destruct (merged_spec (dict_impl E) (urlparse.query (urlparse.urlparse u)) kwargs Hkw)
      as (q' & Hq' & Hnd & Hget).
    rewrite Hq in Hq'. injection Hq' as <-. by split. }
  split; eexists (length (heap w)), _, q; split_and!; try done; lia.
Qed.

Lemma filter_frame_witness :
  let o := mkPromiseObject (mkHttpObject (Some "http://example.com/foo") []) false
             (Some (Transport 1)) in
  let w := (Package.get "http://example.com/foo" (Some (Transport 1)) Demo.nothing).2 in
  let kwargs := [("limit", QInt 10); ("offset", QInt 7)] in
  heap w !! 0%nat = Some o /\
  Package.filter Demo.package 0 kwargs w
  = (Return 1%nat,
     mkWorld [o; mkPromiseObject
                   (mkHttpObject (Some "http://example.com/foo?limit=10&offset=7") [])
                   false (Some (Transport 1))] [] []) /\
  derives (Package.filter Demo.package 0 kwargs) dict.cpython2 0 o
    "http://example.com/foo" kwargs w /\
  derives (Legacy.filter Demo.package 0 kwargs) dict.cpython2 0 o
    "http://example.com/foo" kwargs w.
Proof.
  cbv zeta. split; [reflexivity|]. split; [reflexivity|].
  apply (filter_frame Demo.package 0
           (mkPromiseObject (mkHttpObject (Some "http://example.com/foo") []) false
              (Some (Transport 1)))
           (Package.get "http://example.com/foo" (Some (Transport 1)) Demo.nothing).2
           [("limit", QInt 10); ("offset", QInt 7)]).
  reflexivity.
Defined.

(** The filters of the package's test, run. *)
Example test_filter :
  Query.filter_url dict.cpython2 "http://example.com/foo"
    [("limit", QInt 10); ("offset", QInt 7)]
  = Some "http://example.com/foo?limit=10&offset=7" /\
  Query.filter_url dict.cpython2 "http://example.com/foo" [("awesome", QStr "yes")]
  = Some "http://example.com/foo?awesome=yes" /\
  Query.filter_url dict.cpython2 "http://example.com/foo?awesome=yes"
    [("awesome", QStr "no")]
  = Some "http://example.com/foo?awesome=no".
Proof. by vm_compute. Qed.

(** The keyword arguments [offset=start, limit=stop - start] as the dict the
    interpreter builds for the call. *)
Definition slice_kwargs (I : dict.impl) (start stop : Z) : dict.t qval :=
  dict.of_items I [("offset", QInt start); ("limit", QInt (stop - start))].

Lemma slice_kwargs_spec I start stop :
  NoDup (dict.keys (slice_kwargs I start stop)) /\
  dict.get (slice_kwargs I start stop) "offset" = Some (QInt start) /\
  dict.get (slice_kwargs I start stop) "limit" = Some (QInt (stop - start)).
Proof.
  destruct (update_spec I [] [("offset", QInt start); ("limit", QInt (stop - start))])
    as [H1 H2].
  - apply NoDup_nil_2.
  - simpl. apply NoDup_cons. split; [|apply NoDup_singleton].
    intros Hin%list_elem_of_singleton. discriminate Hin.
  - unfold slice_kwargs, dict.of_items. split; [done|]. by rewrite !H2.
Qed.

(** The query [q] has the parameter [k=v]: the dict gives [v] for [k], and
    the encoded item is one of those [urlencode] joins with ['&']. *)
Definition has_parameter (q : dict.t qval) (k : string) (v : qval) : Prop :=
  dict.get q k = Some v /\
  urllib.urlencode_item (k, v) ∈ urllib.urlencode_item <$> dict.items q.

Lemma get_has_parameter (q : dict.t qval) k v :
  NoDup (dict.keys q) -> dict.get q k = Some v -> has_parameter q k v.
Proof.
  intros Hnd Hg. split; [done|]. apply list_elem_of_fmap. exists (k, v).
  split; [done|]. by apply get_Some_elem_of.
Qed.

(** C7: indexing a [ListObject] with a slice [start:stop] is
    [filter(offset=start, limit=stop - start)]: for an instance at a URL it
    returns a new undelivered instance, not elements, whose location has the
    query parameters [offset=start] and [limit=stop-start]; indexing with an
    ordinal when no class above [ListObject] has [__getitem__] raises
    [TypeError]. *)
Theorem slice_is_filter E self o w u (start stop i : Z) (step : option Z) :
  heap w !! self = Some o ->
  _location (base o) = Some u ->
  super_getitem E = None ->
  let I := dict_impl E in
  let kwargs := slice_kwargs I start stop in
  Legacy.__getitem__ E self (Legacy.Slice (Some start) (Some stop) step) w
    = (r <- Legacy.filter E self kwargs;; ret (inl r : nat + pyval)) w /\
  (exists new w' q,
      Legacy.__getitem__ E self (Legacy.Slice (Some start) (Some stop) step) w
        = (Return (inl new), w') /\
      new <> self /\
      heap w' !! new =
        Some (mkPromiseObject
                (mkHttpObject
                   (Some (urlparse.urlunparse
                            (urlparse.set_query (urlparse.urlparse u)
                               (urllib.urlencode (dict.items q))))) [])
                false (_http o)) /\
      Query.merged I (urlparse.query (urlparse.urlparse u)) kwargs = Some q /\
      has_parameter q "offset" (QInt start) /\
      has_parameter q "limit" (QInt (stop - start))) /\
  (exists msg, Legacy.__getitem__ E self (Legacy.Index i) w = (Raise (TypeError msg), w)).
Proof.
  intros Hself Hloc Hsuper I kwargs.
  assert (Hlt := lookup_lt_Some _ _ _ Hself).
  split; [done|]. split.
  - destruct (slice_kwargs_spec I start stop) as (Hnd & Hoff & Hlim).
    destruct (merged_spec I (urlparse.query (urlparse.urlparse u)) kwargs Hnd)
      as (q & Hq & Hndq & Hget).
    destruct (filter_url_merged I u kwargs) as (q' & Hq' & Hurl).
    rewrite Hq in Hq'. injection Hq' as <-.
    pose proof (Legacy_filter_run E self o w kwargs Hself) as Hrun.
    rewrite Hloc in Hrun. fold I in Hrun. rewrite Hurl in Hrun.
    set (w' := mkWorld _ _ _) in Hrun.
    set (new := length (heap w)) in *.
    assert (Hne : new <> self) by (unfold new; lia).
    assert (Hnew : heap w' !! new = Some (mkPromiseObject
              (mkHttpObject
                 (Some (urlparse.urlunparse
                          (urlparse.set_query (urlparse.urlparse u)
                             (urllib.urlencode (dict.items q))))) [])
              false (_http o))) by apply lookup_alloc.
    exists new, w', q. split_and!; try done.
    + change (Legacy.__getitem__ E self (Legacy.Slice (Some start) (Some stop) step) w)
        with ((r <- Legacy.filter E self kwargs;; ret (inl r : nat + pyval)) w).
      unfold bind. by rewrite Hrun.
    + apply get_has_parameter; [done|]. rewrite Hget. unfold kwargs. by rewrite Hoff.
    + apply get_has_parameter; [done|]. rewrite Hget. unfold kwargs. by rewrite Hlim.
  - simpl. rewrite Hsuper. by eexists.
Qed.

Lemma slice_is_filter_witness :
  let u := "http://example.com/foo" in
  let o := mkPromiseObject (mkHttpObject (Some u) []) false None in
  let w := (Legacy.get u None Demo.nothing).2 in
  heap w !! 0%nat = Some o /\
  Legacy.__getitem__ Demo.legacy 0 (Legacy.Slice (Some 0) (Some 5) None) w
    = (Return (inl 1%nat),
       mkWorld [o; mkPromiseObject
                     (mkHttpObject (Some "http://example.com/foo?limit=5&offset=0") [])
                     false None] [] []) /\
  exists msg, Legacy.__getitem__ Demo.legacy 0 (Legacy.Index 3) w
              = (Raise (TypeError msg), w).
Proof.
  cbv zeta. split; [reflexivity|]. split; [reflexivity|].
  apply (slice_is_filter Demo.legacy 0
           (mkPromiseObject (mkHttpObject (Some "http://example.com/foo") []) false None)
           (Legacy.get "http://example.com/foo" None Demo.nothing).2
           "http://example.com/foo" 0 5 3 None); reflexivity.
Defined.

(** ** The merge under an insertion-ordered dict *)







Lemma get_filter_ne {V} (d : dict.t V) k k' :
  dict.get (base.filter (fun kv => kv.1 <> k) d) k' =
  if decide (k' = k) then None else dict.get d k'.
Proof.
  induction d as [|[k0 v0] d IH]; simpl.
  - by destruct (decide (k' = k)).
  - rewrite filter_cons. simpl. destruct (decide (k0 <> k)) as [Hne|Heq]; simpl.
    + destruct (decide (k0 = k')) as [->|Hne']; [by rewrite decide_False|done].
    + apply dec_stable in Heq. subst k0. rewrite IH.
      destruct (decide (k' = k)) as [->|Hne]; [done|]. by rewrite decide_False.
Qed.


Lemma NoDup_filter_keys {V} (P : string * V -> Prop) `{!forall x, Decision (P x)}
    (d : dict.t V) :
  NoDup (dict.keys d) -> NoDup (dict.keys (base.filter P d)).
Proof.
  induction d as [|[k v] d IH]; [done|]. simpl. intros [Hk Hd]%NoDup_cons.
  rewrite filter_cons. destruct (decide (P (k, v))); [|by apply IH].
  simpl. apply NoDup_cons. split; [|by apply IH].
  intros Hin. apply Hk. unfold dict.keys in *.
  apply list_elem_of_fmap in Hin as ([k' v'] & -> & Hin).
  apply list_elem_of_filter in Hin as [_ Hin].
  apply list_elem_of_fmap. by exists (k', v').
Qed.












(** ** Claims about the merged query *)







(** ** The raw mapping an instance is made from *)

Lemma get_fmap_values {A B} (f : A -> B) (d : dict.t A) k :
  dict.get ((fun kv => (kv.1, f kv.2)) <$> d) k = f <$> dict.get d k.
Proof.
  induction d as [|[k0 v0] d IH]; [done|]. rewrite fmap_cons. simpl.
  by destruct (decide (k0 = k)).
Qed.

Lemma keys_fmap_values {A B} (f : A -> B) (d : dict.t A) :
  dict.keys ((fun kv => (kv.1, f kv.2)) <$> d) = dict.keys d.
Proof.
  unfold dict.keys. rewrite <- list_fmap_compose. by apply list_fmap_ext.
Qed.

Lemma deepcopy_ref depth (st : store) a d :
  st !! a = Some d ->
  Package.deepcopy (S depth) st (PRef a) =
  Package.TDict ((fun kv => (kv.1, Package.deepcopy depth st kv.2)) <$> d).
Proof. intros Ha. simpl. by rewrite Ha. Qed.

Lemma fold_del_nil fs : fold_left Package.del fs [] = [].
Proof. by induction fs. Qed.

(** [from_dict(m)]: a new, delivered instance whose [api_data] is the
    mapping [m] itself. *)
Lemma Package_from_dict_run E m w :
  Package.from_dict E (PRef m) w =
  (Return (length (heap w)),
   mkWorld (heap w ++ [mkPromiseObject
                         (mkHttpObject None
                            (dict.set (dict_impl E) [] "api_data" (PRef m)))
                         true None])
           (mappings w) (wire w)).
Proof.
  unfold Package.from_dict. unfold bind at 1. rewrite Package_construct_run.
  unfold Package.update_from_dict. py_unfold. py_alloc. by rewrite fold_del_nil.
Qed.

Lemma Package_api_data_delivered E self o w data :
  heap w !! self = Some o -> _delivered o = true ->
  dict.get (__dict__ (base o)) "api_data" = Some data ->
  Package._get_api_data E self w = (Return data, w).
Proof.
  intros Hself Hd Hdata. unfold Package._get_api_data. py_unfold.
  rewrite Hself, Hd. simpl. by rewrite Hself, Hdata.
Qed.

(** The fields the instance holds no value of leave the copy as it is. *)
Lemma to_dict_overlay I (held : dict.t pyval) (enc : pyval -> Package.pytree)
    fs (out : dict.t Package.pytree) k :
  NoDup (dict.keys out) -> k ∉ fs ->
  let out' := fold_left
                (fun out f =>
                   match dict.get held f with
                   | Some v => dict.set I out f (enc v)
                   | None => out
                   end) fs out in
  NoDup (dict.keys out') /\ dict.get out' k = dict.get out k.
Proof.
  revert out. induction fs as [|f fs IH]; intros out Hnd Hk; [done|].
  apply not_elem_of_cons in Hk as [Hne Hk]. cbn [fold_left].
  destruct (dict.get held f) as [v|]; [|by apply IH].
  destruct (IH (dict.set I out f (enc v))) as [H1 H2]; [by apply keys_set|done|].
  split; [done|]. cbv zeta in H2. rewrite H2, get_set by done.
  by rewrite decide_False.
Qed.

(** The world after [m[k] = v] on a mapping of the store. *)
Lemma Package_setitem_run E a d k v w :
  mappings w !! a = Some d ->
  Package.setitem E (PRef a) k v w =
  (Return tt,
   mkWorld (heap w) (<[a := dict.set (dict_impl E) d k v]> (mappings w)) (wire w)).
Proof. intros Ha. unfold Package.setitem. by rewrite Ha. Qed.

(** C9 (amended): [from_dict(m)] makes the instance hold the mapping [m]
    itself, not a copy.  Storing a value under a top-level key of [m]
    afterwards, before the field of that name is first read, changes what
    the field reads: it reads the new value.  Storing into a mapping nested
    in [m] under a key no field claims shows in the [to_dict()] that
    follows. *)
Theorem raw_mapping_is_aliased E w m d f v k b db k2 s :
  mappings w !! m = Some d ->
  NoDup (dict.keys d) ->
  f ∈ fields E -> f <> "api_data" ->
  k ∉ fields E ->
  dict.get d k = Some (PRef b) ->
  b <> m ->
  mappings w !! b = Some db ->
  NoDup (dict.keys db) ->
  ((x <- Package.from_dict E (PRef m);;
    Package.setitem E (PRef m) f v;;
    Package.getattr E x f) w).1 = Return v /\
  exists t,
    ((x <- Package.from_dict E (PRef m);;
      Package.setitem E (PRef b) k2 (PStr s);;
      Package.to_dict E x) w).1 = Return t /\
    (sub ← Package.tree_item t k; Package.tree_item sub k2) = Some (Package.TStr s).
Proof.
  intros Hm Hnd Hf Hfa Hk Hkb Hbm Hb Hndb.
  set (I := dict_impl E).
  set (o := mkPromiseObject
              (mkHttpObject None (dict.set I [] "api_data" (PRef m))) true None).
  set (w1 := mkWorld (heap w ++ [o]) (mappings w) (wire w)).
  assert (Hself : heap w1 !! length (heap w) = Some o) by apply lookup_alloc.
  assert (Hapi : dict.get (__dict__ (base o)) "api_data" = Some (PRef m)).
  { simpl. rewrite get_set by apply NoDup_nil_2. by rewrite decide_True. }
  assert (Hmiss : forall g, g <> "api_data" -> dict.get (__dict__ (base o)) g = None).
  { intros g Hg. simpl. rewrite get_set by apply NoDup_nil_2.
    by rewrite decide_False. }
  assert (Hlm := lookup_lt_Some _ _ _ Hm). assert (Hlb := lookup_lt_Some _ _ _ Hb).
  split.
  - unfold bind at 1. rewrite Package_from_dict_run. fold I o w1.
    unfold bind at 1. rewrite (Package_setitem_run E m d f v w1 Hm). fold I.
    set (w2 := mkWorld (heap w1) (<[m := dict.set I d f v]> (mappings w1)) (wire w1)).
    unfold Package.getattr. rewrite decide_True by done.
    unfold Package.Field___get__. unfold bind at 1. unfold load at 1.
    change (heap w2) with (heap w1). rewrite Hself, (Hmiss f Hfa).
    unfold bind at 1.
    rewrite (Package_api_data_delivered E _ o w2 (PRef m) Hself eq_refl Hapi).
    unfold Package.item. simpl mappings.
    rewrite list_lookup_insert_eq by done. simpl.
    rewrite get_set, decide_True by done.
    py_unfold. unfold w2, w1. by repeat (progress (simpl; rewrite ?lookup_alloc)).
  - unfold bind at 1. rewrite Package_from_dict_run. fold I o w1.
    unfold bind at 1. rewrite (Package_setitem_run E b db k2 (PStr s) w1 Hb). fold I.
    set (st := <[b := dict.set I db k2 (PStr s)]> (mappings w1)).
    set (w2 := mkWorld (heap w1) st (wire w1)).
    assert (Hstm : st !! m = Some d).
    { unfold st. by rewrite list_lookup_insert_ne. }
    assert (Hstb : st !! b = Some (dict.set I db k2 (PStr s))).
    { unfold st. by rewrite list_lookup_insert_eq. }
    assert (Hlen : exists n, length st = S n).
    { unfold st. rewrite length_insert. simpl. destruct (length (mappings w)); [lia|by eexists]. }
    destruct Hlen as [n Hlen].
    unfold Package.to_dict. unfold bind at 1.
    rewrite (Package_api_data_delivered E _ o w2 (PRef m) Hself eq_refl Hapi).
    unfold bind at 1. unfold load at 1. change (heap w2) with (heap w1).
    rewrite Hself. simpl mappings. rewrite Hlen.
    rewrite (deepcopy_ref (S n) st m d Hstm).
    eexists. split; [reflexivity|].
    cbn [Package.tree_item].
    destruct (to_dict_overlay (dict_impl E) (__dict__ (base o))
                (Package.deepcopy (S (S n)) st) (fields E)
                ((fun kv => (kv.1, Package.deepcopy (S n) st kv.2)) <$> d) k)
      as [_ Hget]; [by rewrite keys_fmap_values | done |].
    cbv zeta in Hget. rewrite Hget, get_fmap_values, Hkb.
    cbn [fmap option_fmap option_map mbind option_bind].
    rewrite (deepcopy_ref n st b _ Hstb). cbn [Package.tree_item].
    rewrite get_fmap_values, get_set, decide_True by done. by destruct n.
Qed.

Lemma raw_mapping_is_aliased_witness :
  let E := Demo.basic_most in
  mappings Demo.spooky !! 1%nat
    = Some [("name", PStr "foo"); ("value", PStr "4"); ("secret", PRef 0)] /\
  mappings Demo.spooky !! 0%nat = Some [("code", PStr "uuddlrlrba")] /\
  ((x <- Package.from_dict E (PRef 1);;
    Package.setitem E (PRef 1) "name" (PStr "bar");;
    Package.getattr E x "name") Demo.spooky).1 = Return (PStr "bar") /\
  exists t,
    ((x <- Package.from_dict E (PRef 1);;
      Package.setitem E (PRef 0) "code" (PStr "steak");;
      Package.to_dict E x) Demo.spooky).1 = Return t /\
    (sub ← Package.tree_item t "secret"; Package.tree_item sub "code")
      = Some (Package.TStr "steak").
Proof.
  cbv zeta. split; [reflexivity|]. split; [reflexivity|].
  apply (raw_mapping_is_aliased Demo.basic_most Demo.spooky 1
           [("name", PStr "foo"); ("value", PStr "4"); ("secret", PRef 0)]
           "name" (PStr "bar") "secret" 0 [("code", PStr "uuddlrlrba")]
           "code" "steak").
  - reflexivity.
  - refine (bool_decide_unpack _ _). vm_compute. exact I.
  - apply list_elem_of_here.
  - discriminate.
  - refine (bool_decide_unpack _ _). vm_compute. exact I.
  - reflexivity.
  - discriminate.
  - reflexivity.
  - apply NoDup_singleton.
Defined.

(** C9 as stated fails on its first half, as [test_spooky_action] itself
    says ("Changing initial data does change instance's internal data"):
    [x.name] reads ['foo'] when nothing is stored into [initial], and ['bar']
    after [initial['name'] = 'bar']. *)
Lemma spooky_action_top_level :
  let E := Demo.basic_most in
  let initial := PRef 1 in
  ((x <- Package.from_dict E initial;;
    Package.getattr E x "name") Demo.spooky).1 = Return (PStr "foo") /\
  ((x <- Package.from_dict E initial;;
    Package.setitem E initial "name" (PStr "bar");;
    Package.getattr E x "name") Demo.spooky).1 = Return (PStr "bar").
Proof. by vm_compute. Qed.

(** The first two assertions of [test_spooky_action], run in order. *)
Example test_spooky_action :
  let E := Demo.basic_most in
  let initial := PRef 1 in
  let secret := PRef 0 in
  ((x <- Package.from_dict E initial;;
    Package.setitem E initial "name" (PStr "bar");;
    name <- Package.getattr E x "name";;
    Package.setitem E secret "code" (PStr "steak");;
    d <- Package.to_dict E x;;
    ret (name, sub ← Package.tree_item d "secret"; Package.tree_item sub "code"))
     Demo.spooky).1
  = Return (PStr "bar", Some (Package.TStr "steak")).
Proof. by vm_compute. Qed.

(** ** Delivery, once it has succeeded or failed *)

(** What a [deliver] that succeeds does: the one request [q], the instance
    delivered, and a second [deliver] refused. *)
Definition delivers_once (deliver : nat -> M unit) (self : nat)
    (q : Http * Request) (w : World) : Prop :=
  exists w1,
    deliver self w = (Return tt, w1) /\
    wire w1 = wire w ++ [q] /\
    delivered_in w1 self /\
    refused deliver self w1.

(** X1: [deliver()] on an undelivered instance that has a location, when the
    transport answers and the superclass accepts the answer, returns after
    exactly one request (through the instance's transport, or the default
    one), leaves the instance delivered, and a second [deliver()] right
    after it raises [PromiseError] and requests nothing.  Both modules. *)
Theorem deliver_once E self o w u :
  heap w !! self = Some o ->
  _delivered o = false ->
  _location (base o) = Some u ->
  let http := default userAgent (_http o) in
  (forall rc,
      request E http (wire w) (get_request E (base o)) = Return rc ->
      (HttpObject_update_from_response E (uri (get_request E (base o))) rc.1 rc.2
         (base o) (mappings w)).2 = None ->
      delivers_once (Package.deliver E) self (http, get_request E (base o)) w) /\
  (forall rc,
      request E http (wire w) (request_for E u) = Return rc ->
      (HttpObject_update_from_response E u rc.1 rc.2 (base o) (mappings w)).2 = None ->
      delivers_once (Legacy.deliver E) self (http, request_for E u) w).
Proof.
  intros Hself Hd Hloc http. assert (Hlt := lookup_lt_Some _ _ _ Hself).
  split; intros rc Hrc Hacc; unfold delivers_once.
  - rewrite (Package_deliver_run E self o w Hself), Hd, Hloc. cbv zeta.
    fold http. rewrite Hrc.
    destruct (HttpObject_update_from_response E _ _ _ _ _) as [[b st] [x|]]; [done|].
    eexists. split; [done|]. split; [done|].
    assert (Hnew : heap (mkWorld (<[self := mkPromiseObject b true (_http o)]> (heap w)) st
                           (wire w ++ [(http, get_request E (base o))])) !! self
                   = Some (mkPromiseObject b true (_http o)))
      by (by apply list_lookup_insert_eq).
    split; [by eexists|]. unfold refused.
    rewrite (Package_deliver_run E self _ _ Hnew). by eexists.
  - rewrite (Legacy_deliver_run E self o w Hself), Hd, Hloc. cbv zeta.
    fold http. rewrite Hrc.
    destruct (HttpObject_update_from_response E _ _ _ _ _) as [[b st] [x|]]; [done|].
    eexists. split; [done|]. split; [done|].
    assert (Hnew : heap (mkWorld (<[self := mkPromiseObject b true (_http o)]> (heap w)) st
                           (wire w ++ [(http, request_for E u)])) !! self
                   = Some (mkPromiseObject b true (_http o)))
      by (by apply list_lookup_insert_eq).
    split; [by eexists|]. unfold refused.
    rewrite (Legacy_deliver_run E self _ _ Hnew). by eexists.
Qed.

Lemma deliver_once_witness :
  let u := "http://example.com/whahay" in
  let o := mkPromiseObject (mkHttpObject (Some u) []) false None in
  let w := (Package.get u None Demo.nothing).2 in
  heap w !! 0%nat = Some o /\
  delivers_once (Package.deliver Demo.package) 0
    (userAgent, get_request Demo.package (base o)) w /\
  delivers_once (Legacy.deliver Demo.package) 0
    (userAgent, request_for Demo.package u) w.
Proof.
  cbv zeta. split; [reflexivity|].
  destruct (deliver_once Demo.package 0
              (mkPromiseObject (mkHttpObject (Some "http://example.com/whahay") []) false
                 None)
              (Package.get "http://example.com/whahay" None Demo.nothing).2
              "http://example.com/whahay" eq_refl eq_refl eq_refl) as [H1 H2].
  split.
  - apply (H1 (mkResponse 200 [("content-type", "application/json")], "name=Mollifred"));
      reflexivity.
  - apply (H2 (mkResponse 200 [("content-type", "application/json")], "name=Mollifred"));
      reflexivity.
Defined.

(** What [deliver] on the instance [o] at [self] leaves alone, whether it
    returns or raises: the number of instances, every instance but [self],
    the transport of [self]; and it makes one request at most. *)
Definition touches_only (deliver : nat -> M unit) (self : nat) (o : PromiseObject)
    (w : World) : Prop :=
  let w1 := (deliver self w).2 in
  length (heap w1) = length (heap w) /\
  (forall i, i <> self -> heap w1 !! i = heap w !! i) /\
  (exists o1, heap w1 !! self = Some o1 /\ _http o1 = _http o) /\
  (wire w1 = wire w \/ exists q, wire w1 = wire w ++ [q]).

(** X2: whatever [deliver()] does on an instance (return, raise a
    [PromiseError], fail in the transport or in the superclass), it creates
    no instance, changes no instance but its own, keeps its own transport,
    and makes at most one request.  Both modules. *)
Theorem deliver_frame E self o w :
  heap w !! self = Some o ->
  touches_only (Package.deliver E) self o w /\
  touches_only (Legacy.deliver E) self o w.
Proof.
  intros Hself. assert (Hlt := lookup_lt_Some _ _ _ Hself).
  unfold touches_only. cbv zeta.
  rewrite (Package_deliver_run E self o w Hself), (Legacy_deliver_run E self o w Hself).
  destruct (_delivered o).
  { split; (split_and!; [done|done|by exists o|by left]). }
  destruct (_location (base o)) as [u|].
  2:{ split; (split_and!; [done|done|by exists o|by left]). }
  cbv zeta. split.
  - destruct (request E _ (wire w) (get_request E (base o))) as [rc|e].
    + destruct (HttpObject_update_from_response E _ _ _ _ _) as [[b st] [x|]];
        cbn [snd heap wire].
      * split_and!; [by rewrite length_insert | | | right; by eexists].
        -- intros i Hi. by rewrite list_lookup_insert_ne.
        -- eexists. by rewrite list_lookup_insert_eq.
      * split_and!; [by rewrite length_insert | | | right; by eexists].
        -- intros i Hi. by rewrite list_lookup_insert_ne.
        -- eexists. by rewrite list_lookup_insert_eq.
    + cbn [snd heap wire]. split_and!; [done|done|by exists o|right; by eexists].
  - destruct (request E _ (wire w) (request_for E u)) as [rc|e].
    + destruct (HttpObject_update_from_response E _ _ _ _ _) as [[b st] [x|]];
        cbn [snd heap wire].
      * split_and!; [by rewrite length_insert | | | right; by eexists].
        -- intros i Hi. by rewrite list_lookup_insert_ne.
        -- eexists. by rewrite list_lookup_insert_eq.
      * split_and!; [by rewrite length_insert | | | right; by eexists].
        -- intros i Hi. by rewrite list_lookup_insert_ne.
        -- eexists. by rewrite list_lookup_insert_eq.
    + cbn [snd heap wire]. split_and!; [done|done|by exists o|right; by eexists].
Qed.

Lemma deliver_frame_witness :
  let o := mkPromiseObject (mkHttpObject (Some "http://example.com/gone") []) false None in
  let w := (Package.get "http://example.com/gone" None
              (Package.get "http://example.com/whahay" None Demo.nothing).2).2 in
  heap w !! 1%nat = Some o /\
  touches_only (Package.deliver Demo.package) 1 o w /\
  touches_only (Legacy.deliver Demo.package) 1 o w.
Proof.
  cbv zeta. split; [reflexivity|].
  apply (deliver_frame Demo.package 1
           (mkPromiseObject (mkHttpObject (Some "http://example.com/gone") []) false None)
           (Package.get "http://example.com/gone" None
              (Package.get "http://example.com/whahay" None Demo.nothing).2).2).
  reflexivity.
Defined.

(** Two reads in a row, both failing with what the transport raised, each
    after a request [q] of its own, the instances as they were. *)
Definition asks_again {A} (read : M A) (q : Http * Request) (e1 e2 : exn)
    (w : World) : Prop :=
  exists w1 w2,
    read w = (Raise e1, w1) /\
    read w1 = (Raise e2, w2) /\
    wire w2 = wire w ++ [q; q] /\
    heap w2 = heap w.

(** X3: a failed fetch is not remembered.  When the transport raises, the
    read of [api_data] (package) or of a declared field (top-level module)
    on an undelivered instance raises the same error and leaves the
    instances as they were; the next read sends the request again. *)
Theorem failed_read_asks_again E self o w u f e1 e2 :
  heap w !! self = Some o ->
  _delivered o = false ->
  _location (base o) = Some u ->
  f ∈ fields E ->
  dict.get (__dict__ (base o)) f = None ->
  let http := default userAgent (_http o) in
  (let q := (http, get_request E (base o)) in
   request E http (wire w) q.2 = Raise e1 ->
   request E http (wire w ++ [q]) q.2 = Raise e2 ->
   asks_again (Package._get_api_data E self) q e1 e2 w) /\
  (let q := (http, request_for E u) in
   request E http (wire w) q.2 = Raise e1 ->
   request E http (wire w ++ [q]) q.2 = Raise e2 ->
   asks_again (Legacy.getattr E self f) q e1 e2 w).
Proof.
  intros Hself Hd Hloc Hf Hmiss http. cbv zeta. cbn [snd].
  split; intros H1 H2; unfold asks_again.
  - set (q := (http, get_request E (base o))).
    set (w1 := mkWorld (heap w) (mappings w) (wire w ++ [q])).
    assert (Hr : forall w0 e, heap w0 !! self = Some o ->
                request E http (wire w0) (get_request E (base o)) = Raise e ->
                Package._get_api_data E self w0
                = (Raise e, mkWorld (heap w0) (mappings w0) (wire w0 ++ [q]))).
    { intros w0 e Hs Hq. unfold Package._get_api_data.
      unfold bind at 1. unfold load at 1. rewrite Hs, Hd. cbn [negb].
      unfold bind at 1.
      rewrite (Package_deliver_run E self o w0 Hs), Hd, Hloc. cbv zeta.
      fold http. by rewrite Hq. }
    exists w1, (mkWorld (heap w) (mappings w) ((wire w ++ [q]) ++ [q])).
    split_and!; [by apply Hr | by apply (Hr w1) | | done].
    cbn [wire]. by rewrite <- app_assoc.
  - set (q := (http, request_for E u)).
    set (w1 := mkWorld (heap w) (mappings w) (wire w ++ [q])).
    assert (Hr : forall w0 e, heap w0 !! self = Some o ->
                request E http (wire w0) (request_for E u) = Raise e ->
                Legacy.getattr E self f w0
                = (Raise e, mkWorld (heap w0) (mappings w0) (wire w0 ++ [q]))).
    { intros w0 e Hs Hq. rewrite (Legacy_getattr_miss E self o w0 f Hs Hmiss).
      unfold Legacy.__getattr__.
      unfold bind at 1. unfold load at 1. rewrite Hs.
      rewrite decide_True by done. rewrite Hd. cbn [negb].
      unfold bind at 1.
      rewrite (Legacy_deliver_run E self o w0 Hs), Hd, Hloc. cbv zeta.
      fold http. by rewrite Hq. }
    exists w1, (mkWorld (heap w) (mappings w) ((wire w ++ [q]) ++ [q])).
    split_and!; [by apply Hr | by apply (Hr w1) | | done].
    cbn [wire]. by rewrite <- app_assoc.
Qed.

Lemma failed_read_asks_again_witness :
  let u := "http://example.com/whahay" in
  let o := mkPromiseObject (mkHttpObject (Some u) []) false None in
  let w := (Package.get u None Demo.nothing).2 in
  let e := Failure "connection refused" in
  heap w !! 0%nat = Some o /\
  "name" ∈ fields Demo.offline /\
  asks_again (Package._get_api_data Demo.offline 0)
    (userAgent, get_request Demo.offline (base o)) e e w /\
  asks_again (Legacy.getattr Demo.offline 0 "name")
    (userAgent, request_for Demo.offline u) e e w.
Proof.
  cbv zeta. split; [reflexivity|]. split; [apply list_elem_of_here|].
  destruct (failed_read_asks_again Demo.offline 0
              (mkPromiseObject (mkHttpObject (Some "http://example.com/whahay") []) false
                 None)
              (Package.get "http://example.com/whahay" None Demo.nothing).2
              "http://example.com/whahay" "name"
              (Failure "connection refused") (Failure "connection refused")
              eq_refl eq_refl eq_refl (list_elem_of_here _ _) eq_refl) as [H1 H2].
  split; [apply H1; reflexivity | apply H2; reflexivity].
Defined.

(** X4: a read of [api_data] that returned can be repeated at no cost: the
    instance is delivered by then, and reading again returns the same
    mapping, requests nothing and changes nothing. *)
Theorem api_data_read_again E self w data w1 :
  Package._get_api_data E self w = (Return data, w1) ->
  Package._get_api_data E self w1 = (Return data, w1) /\ delivered_in w1 self.
Proof.
  unfold Package._get_api_data at 1. unfold bind at 1. unfold load at 1.
  destruct (heap w !! self) as [o|] eqn:Hself; [|done].
  unfold bind at 1. destruct (_delivered o) eqn:Hd; cbn [negb].
  - unfold ret, bind, load. rewrite Hself.
    destruct (dict.get (__dict__ (base o)) "api_data") as [d|] eqn:Hdata; [|done].
    intros [= <- <-]. split; [|by exists o].
    by apply (Package_api_data_delivered E self o).
  - destruct (Package.deliver E self w) as [[[]|ex] w'] eqn:Hdel; [|done].
    destruct (Package_deliver_returns E self o w w' Hself Hdel) as (b & Hb).
    unfold bind, load. rewrite Hb. cbn [base __dict__].
    destruct (dict.get (__dict__ b) "api_data") as [d|] eqn:Hdata; [|done].
    intros [= <- <-]. split; [|by eexists].
    by apply (Package_api_data_delivered E self _ _ _ Hb).
Qed.

Lemma api_data_read_again_witness :
  let u := "http://example.com/whahay" in
  let w := (Package.get u None Demo.nothing).2 in
  let w1 := mkWorld
              [mkPromiseObject (mkHttpObject (Some u) [("api_data", PRef 0)]) true None]
              [[("name", PStr "Mollifred")]]
              [(userAgent, Demo.request_for u)] in
  Package._get_api_data Demo.package 0 w = (Return (PRef 0), w1) /\
  Package._get_api_data Demo.package 0 w1 = (Return (PRef 0), w1) /\
  delivered_in w1 0.
Proof.
  cbv zeta. split; [reflexivity|].
  apply (api_data_read_again Demo.package 0
           (Package.get "http://example.com/whahay" None Demo.nothing).2).
  reflexivity.
Defined.

(** X5: in the top-level module a read of an attribute that returned can be
    repeated at no cost: reading it again returns the same value, requests
    nothing and changes nothing. *)
Theorem legacy_read_again E self f w v w1 :
  Legacy.getattr E self f w = (Return v, w1) ->
  Legacy.getattr E self f w1 = (Return v, w1).
Proof.
  unfold Legacy.getattr at 1. unfold bind at 1. unfold load at 1.
  destruct (heap w !! self) as [o|] eqn:Hself; [|done].
  destruct (dict.get (__dict__ (base o)) f) as [v0|] eqn:Hf.
  - intros [= <- <-]. unfold Legacy.getattr, bind, load. by rewrite Hself, Hf.
  - unfold Legacy.__getattr__. unfold bind at 1. unfold load at 1. rewrite Hself.
    destruct (decide (f ∈ fields E)) as [Hin|Hnin]; [|done].
    destruct (_delivered o) eqn:Hd; cbn [negb]; [done|].
    unfold bind at 1.
    destruct (Legacy.deliver E self w) as [[[]|ex] w'] eqn:Hdel; [|done].
    destruct (Legacy_deliver_returns E self o w w' Hself Hdel) as (b & Hb).
    unfold bind, load. rewrite Hb. cbn [base __dict__].
    destruct (dict.get (__dict__ b) f) as [v1|] eqn:Hf1; [|done].
    intros [= <- <-]. unfold Legacy.getattr, bind, load. rewrite Hb. cbn [base __dict__].
    by rewrite Hf1.
Qed.

Lemma legacy_read_again_witness :
  let u := "http://example.com/whahay" in
  let w := (Legacy.get u None Demo.nothing).2 in
  let w1 := mkWorld
              [mkPromiseObject (mkHttpObject (Some u) [("name", PStr "Mollifred")]) true
                 None]
              [] [(userAgent, Demo.request_for u)] in
  Legacy.getattr Demo.legacy 0 "name" w = (Return (PStr "Mollifred"), w1) /\
  Legacy.getattr Demo.legacy 0 "name" w1 = (Return (PStr "Mollifred"), w1).
Proof.
  cbv zeta. split; [reflexivity|].
  apply (legacy_read_again Demo.legacy 0 "name"
           (Legacy.get "http://example.com/whahay" None Demo.nothing).2).
  reflexivity.
Defined.

(** X6: in the top-level module a declared field that the delivered data
    does not bring is an [AttributeError], not [None]: the first read makes
    the one request, leaves the instance delivered and raises
    [AttributeError]; a later read raises it again and requests nothing. *)
Theorem legacy_field_not_delivered E self o w f u rc b st :
  heap w !! self = Some o ->
  _delivered o = false ->
  _location (base o) = Some u ->
  f ∈ fields E ->
  dict.get (__dict__ (base o)) f = None ->
  let http := default userAgent (_http o) in
  request E http (wire w) (request_for E u) = Return rc ->
  HttpObject_update_from_response E u rc.1 rc.2 (base o) (mappings w) = (b, st, None) ->
  dict.get (__dict__ b) f = None ->
  exists w1,
    Legacy.getattr E self f w = (Raise (AttributeError f), w1) /\
    wire w1 = wire w ++ [(http, request_for E u)] /\
    delivered_in w1 self /\
    Legacy.getattr E self f w1 = (Raise (AttributeError f), w1).
Proof.
  intros Hself Hd Hloc Hf Hmiss http Hrc Hup Hb.
  assert (Hlt := lookup_lt_Some _ _ _ Hself).
  set (o1 := mkPromiseObject b true (_http o)).
  set (w1 := mkWorld (<[self := o1]> (heap w)) st (wire w ++ [(http, request_for E u)])).
  assert (Hdel : Legacy.deliver E self w = (Return tt, w1)).
  { rewrite (Legacy_deliver_run E self o w Hself), Hd, Hloc. cbv zeta.
    fold http. by rewrite Hrc, Hup. }
  assert (Hself1 : heap w1 !! self = Some o1) by (by apply list_lookup_insert_eq).
  exists w1. split_and!.
  - rewrite (Legacy_getattr_miss E self o w f Hself Hmiss).
    unfold Legacy.__getattr__. unfold bind at 1. unfold load at 1. rewrite Hself.
    rewrite decide_True by done. rewrite Hd. cbn [negb].
    unfold bind at 1. rewrite Hdel. unfold bind, load. rewrite Hself1.
    cbn [base __dict__ o1]. by rewrite Hb.
  - done.
  - by exists o1.
  - rewrite (Legacy_getattr_miss E self o1 w1 f Hself1 Hb).
    unfold Legacy.__getattr__, bind, load. rewrite Hself1.
    by rewrite decide_True.
Qed.

Lemma legacy_field_not_delivered_witness :
  let u := "http://example.com/whahay" in
  let o := mkPromiseObject (mkHttpObject (Some u) []) false None in
  let w := (Legacy.get u None Demo.nothing).2 in
  heap w !! 0%nat = Some o /\
  "value" ∈ fields Demo.legacy_pair /\
  exists w1,
    Legacy.getattr Demo.legacy_pair 0 "value" w = (Raise (AttributeError "value"), w1) /\
    wire w1 = wire w ++ [(userAgent, request_for Demo.legacy_pair u)] /\
    delivered_in w1 0 /\
    Legacy.getattr Demo.legacy_pair 0 "value" w1 = (Raise (AttributeError "value"), w1).
Proof.
  cbv zeta. split; [reflexivity|].
  split; [apply list_elem_of_further, list_elem_of_here|].
  apply (legacy_field_not_delivered Demo.legacy_pair 0
           (mkPromiseObject (mkHttpObject (Some "http://example.com/whahay") []) false None)
           (Legacy.get "http://example.com/whahay" None Demo.nothing).2
           "value" "http://example.com/whahay"
           (mkResponse 200 [("content-type", "application/json")], "name=Mollifred")
           (mkHttpObject (Some "http://example.com/whahay") [("name", PStr "Mollifred")])
           []);
    try reflexivity.
  apply list_elem_of_further, list_elem_of_here.
Defined.

(** ** The instance dictionary: [update_from_dict] and the property
    [api_data] *)

Lemma get_del (d : dict.t pyval) k k' :
  dict.get (Package.del d k) k' = if decide (k' = k) then None else dict.get d k'.
Proof. apply get_filter_ne. Qed.

Lemma keys_del (d : dict.t pyval) k :
  NoDup (dict.keys d) -> NoDup (dict.keys (Package.del d k)).
Proof. apply NoDup_filter_keys. Qed.

Lemma get_fold_del fs (d : dict.t pyval) k :
  dict.get (fold_left Package.del fs d) k =
  if decide (k ∈ fs) then None else dict.get d k.
Proof.
  revert d. induction fs as [|f fs IH]; intros d.
  - cbn [fold_left]. rewrite decide_False; [done|]. apply not_elem_of_nil.
  - cbn [fold_left]. rewrite IH, get_del.
    destruct (decide (k ∈ fs)) as [Hin|Hnin].
    + rewrite decide_True; [done|]. by right.
    + destruct (decide (k = f)) as [->|Hne].
      * rewrite decide_True; [done|]. by left.
      * rewrite decide_False; [done|]. by intros [?|?]%elem_of_cons.
Qed.

Lemma keys_fold_del fs (d : dict.t pyval) :
  NoDup (dict.keys d) -> NoDup (dict.keys (fold_left Package.del fs d)).
Proof.
  revert d. induction fs as [|f fs IH]; intros d Hd; [done|].
  cbn [fold_left]. by apply IH, keys_del.
Qed.

(** World [w1] is world [w] but for the instance dictionary of [self], the
    instance [o] of [w], which is [d]: same location, delivered state and
    transport, same other instances, mappings and requests. *)
Definition with_dict (w w1 : World) (self : nat) (o : PromiseObject)
    (d : dict.t pyval) : Prop :=
  w1 = mkWorld (<[self := mkPromiseObject (mkHttpObject (_location (base o)) d)
                            (_delivered o) (_http o)]> (heap w))
               (mappings w) (wire w).

(** X7: [update_from_dict(data)] of the package raises [TypeError] for data
    that is no mapping and changes nothing then; for a mapping it installs
    the mapping itself as [api_data], removes the value of every declared
    field from the instance, keeps every other attribute, and neither
    delivers nor requests: the delivered state, the location, the transport
    and the requests made are as before. *)
Theorem update_from_dict_effect E self o w data :
  heap w !! self = Some o ->
  NoDup (dict.keys (__dict__ (base o))) ->
  match data with
  | PRef _ =>
      exists d w1,
        Package.update_from_dict E self data w = (Return tt, w1) /\
        with_dict w w1 self o d /\
        dict.get d "api_data" = Some data /\
        (forall f, f ∈ fields E -> f <> "api_data" -> dict.get d f = None) /\
        (forall k, k ∉ fields E -> k <> "api_data" ->
                   dict.get d k = dict.get (__dict__ (base o)) k)
  | _ =>
      exists msg, Package.update_from_dict E self data w = (Raise (TypeError msg), w)
  end.
Proof.
  intros Hself Hnd. destruct data as [| | |a]; try (by eexists).
  unfold Package.update_from_dict. py_unfold. rewrite Hself. simpl. rewrite Hself.
  eexists _, _. split; [done|]. split; [done|].
  pose proof (keys_fold_del (fields E) _ Hnd) as Hnd'.
  split_and!.
  - rewrite get_set by done. by rewrite decide_True.
  - intros f Hf Hne. rewrite get_set by done. rewrite decide_False by done.
    rewrite get_fold_del. by rewrite decide_True.
  - intros k Hk Hne. rewrite get_set by done. rewrite decide_False by done.
    rewrite get_fold_del. by rewrite decide_False.
Qed.

Lemma update_from_dict_effect_witness :
  let held := [("name", PStr "old"); ("note", PStr "n")] in
  let o := mkPromiseObject (mkHttpObject None held) true None in
  let w := (Package.construct held Demo.spooky).2 in
  heap w !! 0%nat = Some o /\
  NoDup (dict.keys held) /\
  Package.update_from_dict Demo.basic_most 0 (PRef 1) w
  = (Return tt,
     mkWorld [mkPromiseObject
                (mkHttpObject None [("note", PStr "n"); ("api_data", PRef 1)]) true None]
             (mappings w) []) /\
  exists d w1,
    Package.update_from_dict Demo.basic_most 0 (PRef 1) w = (Return tt, w1) /\
    with_dict w w1 0 o d /\
    dict.get d "api_data" = Some (PRef 1) /\
    (forall f, f ∈ fields Demo.basic_most -> f <> "api_data" -> dict.get d f = None) /\
    (forall k, k ∉ fields Demo.basic_most -> k <> "api_data" ->
               dict.get d k = dict.get held k).
Proof.
  cbv zeta.
  assert (Hnd : NoDup (dict.keys [("name", PStr "old"); ("note", PStr "n")])).
  { refine (bool_decide_unpack _ _). by vm_compute. }
  split; [reflexivity|]. split; [exact Hnd|]. split; [reflexivity|].
  apply (update_from_dict_effect Demo.basic_most 0
           (mkPromiseObject
              (mkHttpObject None [("name", PStr "old"); ("note", PStr "n")]) true None)
           (Package.construct [("name", PStr "old"); ("note", PStr "n")] Demo.spooky).2
           (PRef 1)).
  - reflexivity.
  - exact Hnd.
Defined.

(** X8: assigning to [api_data] stores the value in the instance dictionary
    and does nothing else: every other attribute, the delivered state, the
    location, the transport and the requests made are as before (an
    undelivered instance stays undelivered); on a delivered instance the
    next read of [api_data] returns the value assigned. *)
Theorem set_api_data_effect E self o w value :
  heap w !! self = Some o ->
  NoDup (dict.keys (__dict__ (base o))) ->
  exists d w1,
    Package._set_api_data E self value w = (Return tt, w1) /\
    with_dict w w1 self o d /\
    dict.get d "api_data" = Some value /\
    (forall k, k <> "api_data" -> dict.get d k = dict.get (__dict__ (base o)) k) /\
    (_delivered o = true ->
     Package._get_api_data E self w1 = (Return value, w1)).
Proof.
  intros Hself Hnd. assert (Hlt := lookup_lt_Some _ _ _ Hself).
  unfold Package._set_api_data. py_unfold. rewrite Hself. simpl. rewrite Hself.
  eexists _, _. split; [done|]. split; [done|]. split_and!.
  - rewrite get_set by done. by rewrite decide_True.
  - intros k Hk. rewrite get_set by done. by rewrite decide_False.
  - intros Hd. eapply Package_api_data_delivered.
    + simpl. by apply list_lookup_insert_eq.
    + done.
    + simpl. rewrite get_set by done. by rewrite decide_True.
Qed.

Lemma set_api_data_effect_witness :
  let o := mkPromiseObject (mkHttpObject None [("note", PStr "n")]) true None in
  let w := (Package.construct [("note", PStr "n")] Demo.spooky).2 in
  heap w !! 0%nat = Some o /\
  NoDup (dict.keys [("note", PStr "n")]) /\
  exists d w1,
    Package._set_api_data Demo.package 0 (PRef 1) w = (Return tt, w1) /\
    with_dict w w1 0 o d /\
    dict.get d "api_data" = Some (PRef 1) /\
    (forall k, k <> "api_data" -> dict.get d k = dict.get [("note", PStr "n")] k) /\
    (_delivered o = true ->
     Package._get_api_data Demo.package 0 w1 = (Return (PRef 1), w1)).
Proof.
  cbv zeta. split; [reflexivity|]. split; [apply NoDup_singleton|].
  apply (set_api_data_effect Demo.package 0
           (mkPromiseObject (mkHttpObject None [("note", PStr "n")]) true None)
           (Package.construct [("note", PStr "n")] Demo.spooky).2 (PRef 1)).
  - reflexivity.
  - apply NoDup_singleton.
Defined.

(** X9: deleting [api_data] from an instance that has none raises
    [KeyError] and changes nothing; from one that has it, it removes that
    entry only, after which a second deletion raises [KeyError], and so does
    a read of [api_data] on a delivered instance. *)
Theorem del_api_data_effect E self o w :
  heap w !! self = Some o ->
  match dict.get (__dict__ (base o)) "api_data" with
  | None => Package._del_api_data self w = (Raise (KeyError "api_data"), w)
  | Some _ =>
      exists d w1,
        Package._del_api_data self w = (Return tt, w1) /\
        with_dict w w1 self o d /\
        (forall k, k <> "api_data" -> dict.get d k = dict.get (__dict__ (base o)) k) /\
        Package._del_api_data self w1 = (Raise (KeyError "api_data"), w1) /\
        (_delivered o = true ->
         Package._get_api_data E self w1 = (Raise (KeyError "api_data"), w1))
  end.
Proof.
  intros Hself. assert (Hlt := lookup_lt_Some _ _ _ Hself).
  destruct (dict.get (__dict__ (base o)) "api_data") as [v|] eqn:Hv.
  2:{ unfold Package._del_api_data, bind, load. by rewrite Hself, Hv. }
  unfold Package._del_api_data at 1. unfold bind at 1. unfold load at 1.
  rewrite Hself, Hv. py_unfold. rewrite Hself.
  set (d := Package.del (__dict__ (base o)) "api_data").
  set (o1 := mkPromiseObject (mkHttpObject (_location (base o)) d) (_delivered o) (_http o)).
  set (w1 := mkWorld (<[self := o1]> (heap w)) (mappings w) (wire w)).
  assert (Hself1 : heap w1 !! self = Some o1) by (by apply list_lookup_insert_eq).
  assert (Hgone : dict.get d "api_data" = None).
  { unfold d. rewrite get_del. by rewrite decide_True. }
  exists d, w1. split; [done|]. split; [done|]. split_and!.
  - intros k Hk. unfold d. rewrite get_del. by rewrite decide_False.
  - unfold Package._del_api_data, bind, load. rewrite Hself1.
    cbn [o1 base __dict__]. by rewrite Hgone.
  - intros Hd. unfold Package._get_api_data. py_unfold. rewrite Hself1.
    cbn [o1 _delivered]. rewrite Hd. cbn [negb]. rewrite Hself1.
    cbn [o1 base __dict__]. by rewrite Hgone.
Qed.

Lemma del_api_data_effect_witness :
  let held := [("note", PStr "n"); ("api_data", PRef 1)] in
  let o := mkPromiseObject (mkHttpObject None held) true None in
  let w := (Package.construct held Demo.spooky).2 in
  let w1 := mkWorld [mkPromiseObject (mkHttpObject None [("note", PStr "n")]) true None]
              (mappings w) [] in
  heap w !! 0%nat = Some o /\
  Package._del_api_data 0 w = (Return tt, w1) /\
  Package._del_api_data 0 w1 = (Raise (KeyError "api_data"), w1) /\
  exists d w2,
    Package._del_api_data 0 w = (Return tt, w2) /\
    with_dict w w2 0 o d /\
    (forall k, k <> "api_data" -> dict.get d k = dict.get held k) /\
    Package._del_api_data 0 w2 = (Raise (KeyError "api_data"), w2) /\
    (_delivered o = true ->
     Package._get_api_data Demo.package 0 w2 = (Raise (KeyError "api_data"), w2)).
Proof.
  cbv zeta. split; [reflexivity|]. split; [reflexivity|]. split; [reflexivity|].
  apply (del_api_data_effect Demo.package 0
           (mkPromiseObject
              (mkHttpObject None [("note", PStr "n"); ("api_data", PRef 1)]) true None)
           (Package.construct [("note", PStr "n"); ("api_data", PRef 1)] Demo.spooky).2).
  reflexivity.
Defined.

(** ** Which slices return *)

(** X10: indexing a [ListObject] with a slice returns (a new instance) if
    and only if the slice gives both bounds and the instance has a location;
    in every other case, a slice with an open bound among them, it raises
    and leaves the world as it was.  The step of the slice plays no part. *)
Theorem slice_returns_iff E self o w (start stop step : option Z) :
  heap w !! self = Some o ->
  let run := Legacy.__getitem__ E self (Legacy.Slice start stop step) w in
  ((exists new w1, run = (Return (inl new), w1))
   <-> is_Some start /\ is_Some stop /\ is_Some (_location (base o))) /\
  ((is_Some start /\ is_Some stop /\ is_Some (_location (base o)))
   \/ exists e, run = (Raise e, w)) /\
  run = Legacy.__getitem__ E self (Legacy.Slice start stop None) w.
Proof.
  intros Hself run. unfold run. clear run.
  split; [|split; [|done]].
  - destruct start as [a|], stop as [b|]; cbn [Legacy.__getitem__]; unfold raise.
    2: split; [by intros (? & ? & ?) | by intros (_ & ?%is_Some_None & _)].
    2,3: split; [by intros (? & ? & ?) | by intros (?%is_Some_None & _)].
    unfold bind. rewrite !(Legacy_filter_run E self o w _ Hself).
    destruct (_location (base o)) as [u|].
    + destruct (filter_url_merged (dict_impl E) u
                  (dict.of_items (dict_impl E)
                     [("offset", QInt a); ("limit", QInt (b - a))])) as (q & _ & ->).
      unfold ret.
      split; [intros _; split_and!; by eexists | intros _; by eexists _, _].
    + split; [by intros (? & ? & ?) | by intros (_ & _ & ?%is_Some_None)].
  - destruct start as [a|], stop as [b|]; cbn [Legacy.__getitem__]; unfold raise.
    2,3,4: right; by eexists.
    unfold bind. rewrite !(Legacy_filter_run E self o w _ Hself).
    destruct (_location (base o)) as [u|]; [|right; by eexists].
    left. split_and!; by eexists.
Qed.

Lemma slice_returns_iff_witness :
  let u := "http://example.com/foo" in
  let o := mkPromiseObject (mkHttpObject (Some u) []) false None in
  let w := (Legacy.get u None Demo.nothing).2 in
  heap w !! 0%nat = Some o /\
  Legacy.__getitem__ Demo.legacy 0 (Legacy.Slice None (Some 5) None) w
  = (Raise (TypeError "unsupported operand type(s) for -"), w) /\
  let run := Legacy.__getitem__ Demo.legacy 0 (Legacy.Slice None (Some 5) (Some 2)) w in
  ((exists new w1, run = (Return (inl new), w1))
   <-> is_Some (None : option Z) /\ is_Some (Some 5) /\ is_Some (_location (base o))) /\
  ((is_Some (None : option Z) /\ is_Some (Some 5) /\ is_Some (_location (base o)))
   \/ exists e, run = (Raise e, w)) /\
  run = Legacy.__getitem__ Demo.legacy 0 (Legacy.Slice None (Some 5) None) w.
Proof.
  cbv zeta. split; [reflexivity|]. split; [reflexivity|].
  apply (slice_returns_iff Demo.legacy 0
           (mkPromiseObject (mkHttpObject (Some "http://example.com/foo") []) false None)
           (Legacy.get "http://example.com/foo" None Demo.nothing).2
           None (Some 5) (Some 2)).
  reflexivity.
Defined.

(** ** Strings *)

Lemma append_cons c (s t : string) : String c s +:+ t = String c (s +:+ t).
Proof. reflexivity. Qed.

Lemma append_nil_l (s : string) : "" +:+ s = s.
Proof. reflexivity. Qed.

Lemma append_nil_r (s : string) : s +:+ "" = s.
Proof. induction s as [|c s IH]; [done|]. by rewrite append_cons, IH. Qed.

Lemma append_assoc (a b c : string) : (a +:+ b) +:+ c = a +:+ (b +:+ c).
Proof. induction a as [|x a IH]; [done|]. by rewrite !append_cons, IH. Qed.

Lemma eqb_ascii_true a b : Str.eqb_ascii a b = true <-> a = b.
Proof. unfold Str.eqb_ascii. apply bool_decide_eq_true. Qed.

Lemma eqb_ascii_false a b : Str.eqb_ascii a b = false <-> a <> b.
Proof. unfold Str.eqb_ascii. apply bool_decide_eq_false. Qed.

Lemma eqb_ascii_refl a : Str.eqb_ascii a a = true.
Proof. by apply eqb_ascii_true. Qed.

Lemma replace_app a b x y :
  Str.replace a b (x +:+ y) = Str.replace a b x +:+ Str.replace a b y.
Proof. induction x as [|c x IH]; simpl; [done|]. by rewrite IH. Qed.

Lemma forallb_app p x y :
  Str.forallb p (x +:+ y) = Str.forallb p x && Str.forallb p y.
Proof.
  induction x as [|c x IH]; simpl; [done|]. rewrite IH. by rewrite andb_assoc.
Qed.

Lemma contains_app c x y :
  Str.contains c (x +:+ y) = Str.contains c x || Str.contains c y.
Proof.
  induction x as [|a x IH]; simpl; [done|]. rewrite IH. by rewrite orb_assoc.
Qed.

(** A string of characters that pass [p] has no character that fails it. *)
Lemma forallb_contains p c s :
  Str.forallb p s = true -> p c = false -> Str.contains c s = false.
Proof.
  induction s as [|a s IH]; simpl; [done|].
  intros [Ha Hs]%andb_true_iff Hc. rewrite IH by done. rewrite orb_false_r.
  apply eqb_ascii_false. intros ->. congruence.
Qed.

Lemma split_not_nil c s : Str.split c s <> [].
Proof.
  destruct s as [|a s]; simpl; [done|].
  destruct (Str.eqb_ascii a c); [done|]. by destruct (Str.split c s).
Qed.

Lemma split_absent c s : Str.contains c s = false -> Str.split c s = [s].
Proof.
  induction s as [|a s IH]; simpl; [done|].
  intros [Ha Hs]%orb_false_iff. rewrite Ha, IH by done. done.
Qed.

Lemma split_app c x y :
  Str.contains c x = false ->
  Str.split c (x +:+ String c y) = x :: Str.split c y.
Proof.
  induction x as [|a x IH]; simpl.
  - intros _. by rewrite eqb_ascii_refl.
  - intros [Ha Hx]%orb_false_iff. by rewrite Ha, IH.
Qed.

Lemma split1_app c x y :
  Str.contains c x = false ->
  Str.split1 c (x +:+ String c y) = (x, Some y).
Proof.
  induction x as [|a x IH]; simpl.
  - intros _. by rewrite eqb_ascii_refl.
  - intros [Ha Hx]%orb_false_iff. by rewrite Ha, IH.
Qed.

Lemma join_cons_empty x l : Str.join "" (x :: l) = x +:+ Str.join "" l.
Proof. destruct l; simpl; [by rewrite append_nil_r | done]. Qed.

(** ** Percent-encoding *)

(** What [quote_plus] makes of one character. *)
Definition plus_item (c : ascii) : string :=
  if Str.eqb_ascii c " " then "+"
  else if urllib.always_safe c then String c "" else urllib.percent c.

(** The same after [replace('+', ' ')]. *)
Definition space_item (c : ascii) : string :=
  if Str.eqb_ascii c " " then " "
  else if urllib.always_safe c then String c "" else urllib.percent c.

Fixpoint each_char (f : ascii -> string) (s : string) : string :=
  match s with
  | EmptyString => EmptyString
  | String c s' => f c +:+ each_char f s'
  end.

Ltac each_ascii c := destruct c as [[] [] [] [] [] [] [] []].

Lemma quote_space_item c :
  Str.replace " " "+"
    (if Str.contains c " " || urllib.always_safe c then String c "" else urllib.percent c)
  = plus_item c.
Proof. each_ascii c; vm_compute; reflexivity. Qed.

Lemma quote_plain_item c :
  c <> " "%char ->
  (if Str.contains c "" || urllib.always_safe c then String c "" else urllib.percent c)
  = plus_item c.
Proof.
  intros Hc. unfold plus_item. apply eqb_ascii_false in Hc. by rewrite Hc.
Qed.

Lemma quote_plus_each_char s : urllib.quote_plus s = each_char plus_item s.
Proof.
  unfold urllib.quote_plus. destruct (Str.contains " " s) eqn:Hs.
  - clear Hs. induction s as [|c s IH]; [done|]. cbn [urllib.quote each_char].
    by rewrite replace_app, quote_space_item, IH.
  - induction s as [|c s IH]; [done|]. cbn [urllib.quote each_char].
    cbn [Str.contains] in Hs. apply orb_false_iff in Hs as [Hc Hs].
    rewrite IH by done. f_equal.
    apply quote_plain_item. by apply eqb_ascii_false.
Qed.

Lemma plus_item_space c : Str.replace "+" " " (plus_item c) = space_item c.
Proof. each_ascii c; vm_compute; reflexivity. Qed.

Definition hex_hi (c : ascii) : ascii := urllib.hex_digit (Str.code c / 16).
Definition hex_lo (c : ascii) : ascii := urllib.hex_digit (Str.code c mod 16).

Lemma space_item_cases c :
  if Str.eqb_ascii c " " || urllib.always_safe c
  then space_item c = String c "" /\ c <> "%"%char
  else space_item c = String "%" (String (hex_hi c) (String (hex_lo c) "")) /\
       urllib.hextochr (hex_hi c) (hex_lo c) = Some c /\
       hex_hi c <> "%"%char /\ hex_lo c <> "%"%char.
Proof.
  each_ascii c; vm_compute;
    first [ split; [reflexivity | discriminate]
          | split_and!; [reflexivity | reflexivity | discriminate | discriminate] ].
Qed.

Lemma unquote_cons c r :
  c <> "%"%char -> urllib.unquote (String c r) = String c (urllib.unquote r).
Proof.
  intros Hc%eqb_ascii_false. unfold urllib.unquote. simpl. rewrite Hc.
  pose proof (split_not_nil "%" r). by destruct (Str.split "%" r).
Qed.

Lemma unquote_percent a b c r :
  a <> "%"%char -> b <> "%"%char -> urllib.hextochr a b = Some c ->
  urllib.unquote (String "%" (String a (String b r))) = String c (urllib.unquote r).
Proof.
  intros Ha%eqb_ascii_false Hb%eqb_ascii_false Hc. unfold urllib.unquote.
  cbn [Str.split]. rewrite eqb_ascii_refl, Ha, Hb.
  pose proof (split_not_nil "%" r). destruct (Str.split "%" r) as [|h t]; [done|].
  cbn [map]. rewrite join_cons_empty. cbn [urllib.unquote_item]. by rewrite Hc.
Qed.

Lemma unquote_each_char s : urllib.unquote (each_char space_item s) = s.
Proof.
  induction s as [|c s IH]; [done|]. cbn [each_char].
  pose proof (space_item_cases c) as Hc.
  destruct (Str.eqb_ascii c " " || urllib.always_safe c).
  - destruct Hc as [-> Hc]. rewrite append_cons, append_nil_l.
    by rewrite unquote_cons, IH.
  - destruct Hc as (-> & Hab & Ha & Hb). rewrite !append_cons, append_nil_l.
    by rewrite (unquote_percent _ _ c), IH.
Qed.

Lemma replace_each_char a b f s :
  Str.replace a b (each_char f s) = each_char (fun c => Str.replace a b (f c)) s.
Proof. induction s as [|c s IH]; simpl; [done|]. by rewrite replace_app, IH. Qed.

Lemma each_char_ext f g s : (forall c, f c = g c) -> each_char f s = each_char g s.
Proof. intros H. induction s as [|c s IH]; simpl; [done|]. by rewrite H, IH. Qed.

Lemma quote_plus_unquote s :
  urllib.unquote (Str.replace "+" " " (urllib.quote_plus s)) = s.
Proof.
  rewrite quote_plus_each_char, replace_each_char.
  rewrite (each_char_ext _ space_item) by apply plus_item_space.
  apply unquote_each_char.
Qed.

(** ** The characters of an encoded query *)

Definition quoted_char (c : ascii) : bool :=
  urllib.always_safe c || Str.contains c "%+".

Definition query_char (c : ascii) : bool :=
  urllib.always_safe c || Str.contains c "%+=&".

Lemma plus_item_chars c : Str.forallb quoted_char (plus_item c) = true.
Proof. each_ascii c; vm_compute; reflexivity. Qed.

Lemma quoted_query_char c : quoted_char c = true -> query_char c = true.
Proof. each_ascii c; vm_compute; done. Qed.

Lemma forallb_each_char p f s :
  (forall c, Str.forallb p (f c) = true) -> Str.forallb p (each_char f s) = true.
Proof.
  intros H. induction s as [|c s IH]; [done|]. cbn [each_char].
  by rewrite forallb_app, H, IH.
Qed.

Lemma forallb_impl (p q : ascii -> bool) s :
  (forall c, p c = true -> q c = true) ->
  Str.forallb p s = true -> Str.forallb q s = true.
Proof.
  intros H. induction s as [|c s IH]; [done|]. cbn [Str.forallb].
  intros [Hc Hs]%andb_true_iff. by rewrite (H c Hc), IH.
Qed.

Lemma quote_plus_chars s : Str.forallb quoted_char (urllib.quote_plus s) = true.
Proof. rewrite quote_plus_each_char. apply forallb_each_char, plus_item_chars. Qed.

Lemma urlencode_item_eq kv :
  urllib.urlencode_item kv
  = urllib.quote_plus kv.1 +:+ String "=" (urllib.quote_plus (py_str kv.2)).
Proof. reflexivity. Qed.

Lemma urlencode_item_chars kv :
  Str.forallb query_char (urllib.urlencode_item kv) = true.
Proof.
  rewrite urlencode_item_eq, forallb_app. cbn [Str.forallb].
  rewrite !(forallb_impl _ _ _ quoted_query_char) by apply quote_plus_chars.
  reflexivity.
Qed.

Lemma join_cons2 sep x y l :
  Str.join sep (x :: y :: l) = x +:+ sep +:+ Str.join sep (y :: l).
Proof. reflexivity. Qed.

Lemma join_chars p c l :
  p c = true -> Forall (fun x => Str.forallb p x = true) l ->
  Str.forallb p (Str.join (String c "") l) = true.
Proof.
  intros Hc Hl. induction Hl as [|x l Hx Hl IH]; [done|].
  destruct l as [|y l]; [done|]. rewrite join_cons2, forallb_app, Hx.
  rewrite append_cons, append_nil_l. cbn [Str.forallb]. by rewrite Hc, IH.
Qed.

Lemma urlencode_chars items :
  Str.forallb query_char (urllib.urlencode items) = true.
Proof.
  unfold urllib.urlencode. apply join_chars; [reflexivity|].
  apply Forall_fmap, Forall_forall. intros kv _. apply urlencode_item_chars.
Qed.

(** ** [parse_qsl] inverts [urlencode] *)

Lemma nonempty_app_cons x c y : Str.nonempty (x +:+ String c y) = true.
Proof. by destruct x. Qed.

Lemma parse_pair_urlencode_item kv :
  cgi.parse_pair true (urllib.urlencode_item kv) = Some (kv.1, py_str kv.2).
Proof.
  rewrite urlencode_item_eq. unfold cgi.parse_pair.
  rewrite nonempty_app_cons. cbn [negb].
  rewrite split1_app
    by (apply (forallb_contains quoted_char); [apply quote_plus_chars | reflexivity]).
  rewrite orb_true_r. by rewrite !quote_plus_unquote.
Qed.

Lemma split_join c l :
  l <> [] -> Forall (fun x => Str.contains c x = false) l ->
  Str.split c (Str.join (String c "") l) = l.
Proof.
  intros Hne Hl. induction Hl as [|x l Hx Hl IH]; [done|].
  destruct l as [|y l]; [by apply split_absent|].
  rewrite join_cons2, append_cons, append_nil_l, split_app by done.
  by rewrite IH.
Qed.

Lemma concat_split_absent c l :
  Forall (fun x => Str.contains c x = false) l ->
  concat (map (Str.split c) l) = l.
Proof.
  induction 1 as [|x l Hx Hl IH]; [done|]. cbn [map concat].
  by rewrite split_absent, IH.
Qed.

Lemma urlencode_items_absent c items :
  query_char c = false \/ c = "&"%char -> 
  Forall (fun x => Str.contains c x = false) (map urllib.urlencode_item items).
Proof.
  intros Hc. apply Forall_fmap, Forall_forall. intros kv _. simpl.
  rewrite urlencode_item_eq, contains_app. cbn [Str.contains].
  assert (Hq : quoted_char c = false).
  { destruct Hc as [Hc| ->]; [|reflexivity].
    destruct (quoted_char c) eqn:E; [|done].
    apply quoted_query_char in E. congruence. }
  rewrite !(forallb_contains quoted_char) by (done || apply quote_plus_chars).
  rewrite orb_false_r, orb_false_l.
  apply eqb_ascii_false. intros <-. by destruct Hc.
Qed.

Lemma parse_qsl_urlencode (items : list (string * qval)) :
  cgi.parse_qsl (urllib.urlencode items) true
  = (fun kv => (kv.1, py_str kv.2)) <$> items.
Proof.
  destruct items as [|kv items]; [reflexivity|].
  unfold cgi.parse_qsl, urllib.urlencode.
  rewrite split_join; [|done|by apply urlencode_items_absent; right].
  rewrite concat_split_absent by (apply urlencode_items_absent; by left).
  generalize (kv :: items). intros l.
  induction l as [|x l IH]; [done|]. cbn [map omap fmap list_fmap list_omap].
  by rewrite parse_pair_urlencode_item, IH.
Qed.

(** X11: what [filter] writes into a query, the next [filter] reads back.
    For every byte string, [unquote] after [replace('+', ' ')] is the
    inverse of [quote_plus]; so for every list of items, keys and values
    with any bytes in them, [parse_qsl] of their [urlencode] is the items
    again, in order, every value as [str] gave it. *)
Theorem urlencode_round_trip :
  (forall s, urllib.unquote (Str.replace "+" " " (urllib.quote_plus s)) = s) /\
  (forall items : list (string * qval),
      cgi.parse_qsl (urllib.urlencode items) true
      = (fun kv => (kv.1, py_str kv.2)) <$> items).
Proof. split; [apply quote_plus_unquote | apply parse_qsl_urlencode]. Qed.

(** X12: the query [filter] writes is made of letters, digits, ['_.-'],
    ['%'], ['+'], ['='] and ['&'] only, whatever bytes the keys and the
    values of the old query and of the keyword arguments hold: no space, no
    ['#'], ['?'], ['/'] or [';'] of theirs reaches the new URL unescaped. *)
Theorem filter_query_characters I u (kwargs : dict.t qval) :
  exists q,
    Query.merged I (urlparse.query (urlparse.urlparse u)) kwargs = Some q /\
    Query.filter_url I u kwargs =
      Some (urlparse.urlunparse
              (urlparse.set_query (urlparse.urlparse u)
                 (urllib.urlencode (dict.items q)))) /\
    Str.forallb query_char (urllib.urlencode (dict.items q)) = true.
Proof.
  destruct (filter_url_merged I u kwargs) as (q & Hq & Hu).
  exists q. split_and!; [done|done|apply urlencode_chars].
Qed.

(** ** [urlparse] of the URL [filter] builds *)

Lemma split1_spec c s :
  match Str.split1 c s with
  | (h, Some t) => s = h +:+ String c t /\ Str.contains c h = false
  | (h, None) => s = h /\ Str.contains c s = false
  end.
Proof.
  induction s as [|a s IH]; [done|]. cbn [Str.split1 Str.contains].
  destruct (Str.eqb_ascii a c) eqn:Ha.
  - apply eqb_ascii_true in Ha as ->. done.
  - destruct (Str.split1 c s) as [h [t|]]; destruct IH as [IH1 IH2].
    + rewrite append_cons, <- IH1. cbn [Str.contains]. by rewrite Ha, IH2.
    + rewrite <- IH1. by rewrite IH2.
Qed.

Lemma split1_absent c s : Str.contains c s = false -> Str.split1 c s = (s, None).
Proof.
  intros Hs. pose proof (split1_spec c s) as H.
  destruct (Str.split1 c s) as [h [t|]]; destruct H as [H1 H2].
  - rewrite H1, contains_app in Hs. cbn [Str.contains] in Hs.
    rewrite eqb_ascii_refl, orb_true_r in Hs. done.
  - by rewrite H1.
Qed.

Lemma cut_spec c s a b :
  urlparse.cut c s = (a, b) ->
  Str.contains c a = false /\ (s = a +:+ String c b \/ (s = a /\ b = "")).
Proof.
  unfold urlparse.cut. pose proof (split1_spec c s) as H.
  destruct (Str.split1 c s) as [h [t|]]; destruct H as [H1 H2]; intros [= <- <-].
  - split; [done|]. by left.
  - split; [by rewrite <- H1|]. by right.
Qed.

Lemma cut_app c a b :
  Str.contains c a = false -> urlparse.cut c (a +:+ String c b) = (a, b).
Proof. intros H. unfold urlparse.cut. by rewrite split1_app. Qed.

Lemma cut_absent c a : Str.contains c a = false -> urlparse.cut c a = (a, "").
Proof. intros H. unfold urlparse.cut. by rewrite split1_absent. Qed.

(** [t] is empty or begins with a character that passes [stop]. *)
Definition stops (stop : ascii -> bool) (t : string) : bool :=
  match t with
  | EmptyString => true
  | String c _ => stop c
  end.

Lemma span_until_spec stop s :
  let '(h, t) := Str.span_until stop s in
  s = h +:+ t /\ Str.forallb (fun c => negb (stop c)) h = true /\ stops stop t = true.
Proof.
  induction s as [|a s IH]; [done|]. cbn [Str.span_until].
  destruct (stop a) eqn:Ha; [done|].
  destruct (Str.span_until stop s) as [h t]. destruct IH as (-> & Hh & Ht).
  split_and!; [done| |done]. cbn [Str.forallb]. by rewrite Ha, Hh.
Qed.

Lemma span_until_app stop h t :
  Str.forallb (fun c => negb (stop c)) h = true -> stops stop t = true ->
  Str.span_until stop (h +:+ t) = (h, t).
Proof.
  intros Hh Ht. induction h as [|a h IH].
  - rewrite append_nil_l. destruct t as [|c t]; [done|]. simpl in *. by rewrite Ht.
  - cbn [Str.forallb] in Hh. apply andb_true_iff in Hh as [Ha Hh].
    rewrite append_cons. cbn [Str.span_until].
    apply negb_true_iff in Ha. by rewrite Ha, IH.
Qed.

(** [after_last c s] splits [s] behind its last [c]. *)
Lemma after_last_spec c s :
  let '(p, r) := urlparse.after_last c s in
  s = p +:+ r /\ Str.contains c r = false.
Proof.
  induction s as [|a s IH]; [done|]. cbn [urlparse.after_last].
  destruct (Str.contains c s) eqn:Hs.
  - destruct (urlparse.after_last c s) as [p r]. destruct IH as [-> Hr]. done.
  - destruct (Str.eqb_ascii a c) eqn:Ha; [done|].
    split; [done|]. cbn [Str.contains]. by rewrite Ha, Hs.
Qed.

Lemma after_last_absent c s :
  Str.contains c s = false -> urlparse.after_last c s = ("", s).
Proof.
  destruct s as [|a s]; [done|]. cbn [Str.contains urlparse.after_last].
  intros [Ha Hs]%orb_false_iff. by rewrite Hs, Ha.
Qed.

Lemma after_last_app c s p r r' :
  urlparse.after_last c s = (p, r) -> Str.contains c r' = false ->
  urlparse.after_last c (p +:+ r') = (p, r').
Proof.
  revert p. induction s as [|a s IH]; intros p.
  - intros [= <- <-] Hr'. by apply after_last_absent.
  - cbn [urlparse.after_last]. destruct (Str.contains c s) eqn:Hs.
    + pose proof (after_last_spec c s) as Hspec.
      destruct (urlparse.after_last c s) as [p' r0]. destruct Hspec as [Heq Hr0].
      intros [= <- <-] Hr'. rewrite append_cons. cbn [urlparse.after_last].
      rewrite Heq, contains_app, Hr0, orb_false_r in Hs.
      rewrite contains_app, Hs. cbn [orb]. by rewrite (IH p' eq_refl Hr').
    + destruct (Str.eqb_ascii a c) eqn:Ha.
      * intros [= <- <-] Hr'. rewrite append_cons, append_nil_l.
        cbn [urlparse.after_last]. by rewrite Hr', Ha.
      * intros [= <- <-] Hr'. by apply after_last_absent.
Qed.

(** The parameter split of [urlparse], for a scheme that takes parameters. *)
Definition path_params (url : string) : string * string :=
  if Str.contains ";" url then urlparse.splitparams url else (url, "").

Definition with_params (path params : string) : string :=
  if Str.nonempty params then path +:+ ";" +:+ params else path.

Lemma path_params_round url path params :
  path_params url = (path, params) ->
  path_params (with_params path params) = (path, params).
Proof.
  unfold path_params, with_params.
  destruct (Str.contains ";" url) eqn:Hsemi;
    [|by intros [= <- <-]; cbn [Str.nonempty]; rewrite Hsemi].
  unfold urlparse.splitparams.
  pose proof (after_last_spec "/" url) as Hal.
  destruct (urlparse.after_last "/" url) as [dir last] eqn:Hdir.
  destruct Hal as [Hurl Hlast].
  pose proof (split1_spec ";" last) as Hsp.
  destruct (Str.split1 ";" last) as [l [p|]] eqn:Hl; destruct Hsp as [Hsp1 Hsp2];
    intros [= <- <-].
  - (* the last segment has parameters *)
    rewrite Hsp1, contains_app in Hlast. cbn [Str.contains] in Hlast.
    apply orb_false_iff in Hlast as [Hl1 Hl2]. apply orb_false_iff in Hl2 as [_ Hp].
    destruct (Str.nonempty p) eqn:Hne.
    + assert (Heq : (dir +:+ l) +:+ ";" +:+ p = url).
      { rewrite Hurl, Hsp1. by rewrite append_assoc. }
      rewrite Heq, Hsemi. unfold urlparse.splitparams. by rewrite Hdir, Hl.
    + destruct p as [|? ?]; [|done].
      destruct (Str.contains ";" (dir +:+ l)) eqn:Hs2; [|done].
      unfold urlparse.splitparams.
      rewrite (after_last_app "/" url dir last l Hdir Hl1).
      by rewrite split1_absent.
  - cbn [Str.nonempty]. rewrite Hsemi. unfold urlparse.splitparams. by rewrite Hdir, Hl.
Qed.

Lemma path_params_chars c url path params :
  path_params url = (path, params) -> Str.contains c url = false ->
  Str.contains c path = false /\ Str.contains c params = false.
Proof.
  unfold path_params.
  destruct (Str.contains ";" url); [|by intros [= <- <-]].
  unfold urlparse.splitparams.
  pose proof (after_last_spec "/" url) as Hal.
  destruct (urlparse.after_last "/" url) as [dir last]. destruct Hal as [Hurl _].
  pose proof (split1_spec ";" last) as Hsp.
  destruct (Str.split1 ";" last) as [l [p|]]; destruct Hsp as [Hsp1 _];
    intros [= <- <-] Hc; [|done].
  rewrite Hurl, Hsp1, !contains_app in Hc. cbn [Str.contains] in Hc.
  apply orb_false_iff in Hc as [Hd Hc]. apply orb_false_iff in Hc as [Hl Hc].
  apply orb_false_iff in Hc as [_ Hp].
  by rewrite contains_app, Hd, Hl, Hp.
Qed.

Lemma with_params_prefix url path params :
  path_params url = (path, params) ->
  exists rest, url = with_params path params +:+ rest.
Proof.
  unfold path_params, with_params.
  destruct (Str.contains ";" url);
    [|intros [= <- <-]; exists ""; cbn [Str.nonempty]; by rewrite append_nil_r].
  unfold urlparse.splitparams.
  pose proof (after_last_spec "/" url) as Hal.
  destruct (urlparse.after_last "/" url) as [dir last]. destruct Hal as [Hurl _].
  pose proof (split1_spec ";" last) as Hsp.
  destruct (Str.split1 ";" last) as [l [p|]]; destruct Hsp as [Hsp1 _];
    intros [= <- <-].
  - destruct p as [|c p]; cbn [Str.nonempty].
    + exists ";". by rewrite Hurl, Hsp1, append_assoc.
    + exists "". by rewrite Hurl, Hsp1, append_nil_r, append_assoc.
  - exists "". cbn [Str.nonempty]. by rewrite append_nil_r.
Qed.

Lemma with_params_chars c path params :
  c <> ";"%char ->
  Str.contains c path = false -> Str.contains c params = false ->
  Str.contains c (with_params path params) = false.
Proof.
  intros Hc Hp Hq. unfold with_params. destruct (Str.nonempty params); [|done].
  rewrite contains_app, Hp, append_cons, append_nil_l. cbn [Str.contains orb].
  rewrite Hq, orb_false_r. apply eqb_ascii_false. congruence.
Qed.

Lemma stops_prefix stop a b :
  stops stop (a +:+ b) = true -> a = "" \/ stops stop a = true.
Proof. destruct a; [by left | by right]. Qed.

(** ** [urlsplit], step by step *)

Definition scheme_of (url : string) : string * string :=
  match Str.split1 ":" url with
  | (s, Some rest) =>
      if Str.nonempty s && Str.forallb urlparse.scheme_char s
      then (Str.lower s, rest) else ("", url)
  | (_, None) => ("", url)
  end.

Lemma urlparse_scheme u : urlparse.scheme (urlparse.urlparse u) = (scheme_of u).1.
Proof.
  unfold urlparse.urlparse, urlparse.urlsplit. fold (scheme_of u).
  destruct (scheme_of u) as [sch rest].
  destruct (if urlparse.among sch urlparse.uses_netloc && Str.startswith "//" rest
            then urlparse.splitnetloc rest else ("", rest)) as [net r1].
  destruct (if urlparse.among sch urlparse.uses_fragment
            then urlparse.cut "#" r1 else (r1, "")) as [r2 frag].
  destruct (if urlparse.among sch urlparse.uses_query
            then urlparse.cut "?" r2 else (r2, "")) as [p0 q].
  by destruct (if urlparse.among sch urlparse.uses_params && Str.contains ";" p0
               then urlparse.splitparams p0 else (p0, "")) as [path params].
Qed.

Definition http_like (sch : string) : Prop := sch = "http" \/ sch = "https".

Lemma urlparse_http u sch rest :
  scheme_of u = (sch, rest) -> http_like sch ->
  urlparse.urlparse u =
    let '(net, r1) :=
      if Str.startswith "//" rest then urlparse.splitnetloc rest else ("", rest) in
    let '(r2, frag) := urlparse.cut "#" r1 in
    let '(p0, q) := urlparse.cut "?" r2 in
    let '(path, params) := path_params p0 in
    urlparse.Parts sch net path params q frag.
Proof.
  intros Hs Hsch. unfold urlparse.urlparse, urlparse.urlsplit. fold (scheme_of u).
  rewrite Hs. unfold path_params.
  assert (Hin : urlparse.among sch urlparse.uses_netloc = true /\
                urlparse.among sch urlparse.uses_fragment = true /\
                urlparse.among sch urlparse.uses_query = true /\
                urlparse.among sch urlparse.uses_params = true)
    by (by destruct Hsch as [-> | ->]; vm_compute).
  destruct Hin as (-> & -> & -> & Hpar). cbn [andb].
  destruct (if Str.startswith "//" rest then urlparse.splitnetloc rest else ("", rest))
    as [net r1].
  destruct (urlparse.cut "#" r1) as [r2 frag].
  destruct (urlparse.cut "?" r2) as [p0 q].
  rewrite Hpar. cbn [andb].
  by destruct (if Str.contains ";" p0 then urlparse.splitparams p0 else (p0, ""))
    as [path params].
Qed.

Lemma scheme_of_http sch x :
  http_like sch -> scheme_of (sch +:+ String ":" x) = (sch, x).
Proof.
  intros [-> | ->]; unfold scheme_of; by rewrite split1_app.
Qed.

(** The optional pieces of [urlunsplit]. *)
Definition opt_part (c : ascii) (s : string) : string :=
  if Str.nonempty s then String c s else "".

Lemma opt_part_eq c x s :
  (if Str.nonempty s then x +:+ String c "" +:+ s else x) = x +:+ opt_part c s.
Proof.
  unfold opt_part. destruct (Str.nonempty s); [|by rewrite append_nil_r].
  by rewrite append_cons, append_nil_l.
Qed.

Lemma cut_opt c x s :
  Str.contains c x = false -> urlparse.cut c (x +:+ opt_part c s) = (x, s).
Proof.
  intros Hx. unfold opt_part. destruct s as [|a s]; cbn [Str.nonempty].
  - rewrite append_nil_r. by apply cut_absent.
  - by apply cut_app.
Qed.

Lemma contains_opt c d s :
  c <> d -> Str.contains c s = false -> Str.contains c (opt_part d s) = false.
Proof.
  intros Hc Hs. unfold opt_part. destruct (Str.nonempty s); [|done].
  cbn [Str.contains]. rewrite Hs, orb_false_r. apply eqb_ascii_false. congruence.
Qed.

Lemma stops_app stop a b :
  (a = "" \/ stops stop a = true) -> stops stop b = true ->
  stops stop (a +:+ b) = true.
Proof. intros [-> | Ha] Hb; [done|]. by destruct a. Qed.

Lemma stops_opt (stop : ascii -> bool) c s : stop c = true -> stops stop (opt_part c s) = true.
Proof. intros Hc. unfold opt_part. by destruct (Str.nonempty s). Qed.

Definition netloc_stop (c : ascii) : bool := Str.contains c "/?#".

(** What [urlparse] finds in an http(s) URL that has a network location. *)
Lemma urlparse_http_spec u :
  http_like (urlparse.scheme (urlparse.urlparse u)) ->
  Str.nonempty (urlparse.netloc (urlparse.urlparse u)) = true ->
  let p := urlparse.urlparse u in
  let url := with_params (urlparse.path p) (urlparse.params p) in
  Str.forallb (fun c => negb (netloc_stop c)) (urlparse.netloc p) = true /\
  path_params url = (urlparse.path p, urlparse.params p) /\
  Str.contains "?" url = false /\
  Str.contains "#" url = false /\
  (url = "" \/ Str.startswith "/" url = true).
Proof.
  rewrite urlparse_scheme. destruct (scheme_of u) as [sch rest] eqn:Hs.
  cbn [fst]. intros Hsch. rewrite (urlparse_http u sch rest Hs Hsch).
  destruct (Str.startswith "//" rest).
  2:{ destruct (urlparse.cut "#" rest) as [r2 frag].
      destruct (urlparse.cut "?" r2) as [p0 q].
      by destruct (path_params p0) as [path params]. }
  unfold urlparse.splitnetloc.
  pose proof (span_until_spec (fun c => Str.contains c "/?#") (urlparse.drop2 rest)) as Hn.
  destruct (Str.span_until _ (urlparse.drop2 rest)) as [net r1].
  destruct Hn as (_ & Hnet & Hr1).
  destruct (urlparse.cut "#" r1) as [r2 frag] eqn:Hc1.
  destruct (urlparse.cut "?" r2) as [p0 q] eqn:Hc2.
  destruct (path_params p0) as [path params] eqn:Hpp.
  cbn [urlparse.netloc urlparse.path urlparse.params]. intros _.
  apply cut_spec in Hc1 as [Hh2 Hr2]. apply cut_spec in Hc2 as [Hq0 Hp0].
  assert (Hh0 : Str.contains "#" p0 = false).
  { destruct Hp0 as [-> | [-> _]]; [|done].
    rewrite contains_app in Hh2. by apply orb_false_iff in Hh2 as [? _]. }
  assert (Hpre : exists t, r1 = p0 +:+ t).
  { destruct Hr2 as [-> | [-> _]], Hp0 as [-> | [-> _]].
    - eexists. by rewrite append_assoc.
    - by eexists.
    - by eexists.
    - exists "". by rewrite append_nil_r. }
  destruct Hpre as [t ->].
  destruct (path_params_chars "?" _ _ _ Hpp Hq0) as [Hq1 Hq2].
  destruct (path_params_chars "#" _ _ _ Hpp Hh0) as [Hh1 Hh3].
  destruct (with_params_prefix _ _ _ Hpp) as [t' Ht'].
  split_and!.
  - done.
  - by apply (path_params_round p0).
  - by apply with_params_chars.
  - by apply with_params_chars.
  - rewrite Ht', append_assoc in Hr1. apply stops_prefix in Hr1 as [Hr1|Hr1]; [by left|].
    destruct (with_params path params) as [|c s] eqn:Hw; [by left|]. right.
    cbn [stops] in Hr1. cbn [Str.startswith].
    assert (Hc : c <> "?"%char /\ c <> "#"%char).
    { assert (H1 : Str.contains "?" (String c s) = false) by (rewrite <- Hw; by apply with_params_chars).
      assert (H2 : Str.contains "#" (String c s) = false) by (rewrite <- Hw; by apply with_params_chars).
      cbn [Str.contains] in H1, H2.
      apply orb_false_iff in H1 as [H1 _]. apply orb_false_iff in H2 as [H2 _].
      by apply eqb_ascii_false in H1, H2. }
    destruct Hc as [Hc1 Hc2]. unfold Str.contains in Hr1.
    rewrite !orb_true_iff in Hr1.
    destruct Hr1 as [Hr1|[Hr1|[Hr1|Hr1]]]; try done;
      apply eqb_ascii_true in Hr1; subst; done.
Qed.

(** [urlparse] after [urlunparse]: an http(s) URL with a network location
    parses back into the parts it was put together from. *)
Lemma urlparse_urlunparse u qs :
  http_like (urlparse.scheme (urlparse.urlparse u)) ->
  Str.nonempty (urlparse.netloc (urlparse.urlparse u)) = true ->
  Str.contains "#" qs = false ->
  urlparse.urlparse (urlparse.urlunparse (urlparse.set_query (urlparse.urlparse u) qs))
  = urlparse.set_query (urlparse.urlparse u) qs.
Proof.
  intros Hsch Hnet Hqs.
  destruct (urlparse_http_spec u Hsch Hnet) as (Hn & Hpp & Hq & Hh & Hsl).
  destruct (urlparse.urlparse u) as [sch net path params q0 frag].
  cbn [urlparse.scheme urlparse.netloc urlparse.path urlparse.params] in *.
  unfold urlparse.urlunparse, urlparse.set_query.
  cbn [urlparse.scheme urlparse.netloc urlparse.path urlparse.params
       urlparse.query urlparse.fragment].
  fold (with_params path params). set (url := with_params path params) in *.
  unfold urlparse.urlunsplit. rewrite Hnet. cbn [orb].
  assert (Hurl : (if Str.nonempty url && negb (Str.startswith "/" url)
                  then "/" +:+ url else url) = url).
  { destruct Hsl as [-> | ->]; [done|]. by rewrite andb_false_r. }
  rewrite Hurl.
  assert (Hne : Str.nonempty sch = true) by (by destruct Hsch as [-> | ->]).
  rewrite Hne, !opt_part_eq.
  rewrite !append_assoc, !append_cons, !append_nil_l.
  erewrite urlparse_http; [|by apply scheme_of_http|done].
  cbn [Str.startswith]. rewrite !eqb_ascii_refl. cbn [andb].
  unfold urlparse.splitnetloc. cbn [urlparse.drop2].
  rewrite (span_until_app (fun c => Str.contains c "/?#") net).
  2:{ done. }
  2:{ apply stops_app.
      - destruct Hsl as [-> | Hsl]; [by left|]. right. destruct url as [|c s]; [done|].
        cbn [Str.startswith] in Hsl. apply andb_true_iff in Hsl as [Hc _].
        apply eqb_ascii_true in Hc as <-. done.
      - apply stops_app; [|by apply stops_opt].
        unfold opt_part. destruct (Str.nonempty qs); [by right | by left]. }
  rewrite <- append_assoc, cut_opt.
  2:{ rewrite contains_app, Hh. by apply contains_opt. }
  rewrite cut_opt by done. by rewrite Hpp.
Qed.

(** ** What [filter] changes in the URL, and how filters compose *)

(** The URL [filter] returns, parsed. *)
Lemma filter_url_parts I u (kwargs : dict.t qval) :
  http_like (urlparse.scheme (urlparse.urlparse u)) ->
  Str.nonempty (urlparse.netloc (urlparse.urlparse u)) = true ->
  exists q newurl,
    Query.merged I (urlparse.query (urlparse.urlparse u)) kwargs = Some q /\
    Query.filter_url I u kwargs = Some newurl /\
    urlparse.urlparse newurl
    = urlparse.set_query (urlparse.urlparse u) (urllib.urlencode (dict.items q)).
Proof.
  intros Hsch Hnet.
  destruct (filter_url_merged I u kwargs) as (q & Hq & Hu).
  exists q. eexists. split_and!; [done|done|].
  apply urlparse_urlunparse; [done|done|].
  apply (forallb_contains query_char); [apply urlencode_chars | reflexivity].
Qed.

(** X13: [filter] changes the query of the location and nothing else: for
    an http or https URL with a network location, the URL it returns parses
    into the scheme, network location, path, parameters and fragment of the
    old URL, and the encoded merged query. *)
Theorem filter_changes_only_query I u (kwargs : dict.t qval) :
  http_like (urlparse.scheme (urlparse.urlparse u)) ->
  Str.nonempty (urlparse.netloc (urlparse.urlparse u)) = true ->
  exists q newurl,
    Query.merged I (urlparse.query (urlparse.urlparse u)) kwargs = Some q /\
    Query.filter_url I u kwargs = Some newurl /\
    urlparse.scheme (urlparse.urlparse newurl) = urlparse.scheme (urlparse.urlparse u) /\
    urlparse.netloc (urlparse.urlparse newurl) = urlparse.netloc (urlparse.urlparse u) /\
    urlparse.path (urlparse.urlparse newurl) = urlparse.path (urlparse.urlparse u) /\
    urlparse.params (urlparse.urlparse newurl) = urlparse.params (urlparse.urlparse u) /\
    urlparse.fragment (urlparse.urlparse newurl)
    = urlparse.fragment (urlparse.urlparse u) /\
    urlparse.query (urlparse.urlparse newurl) = urllib.urlencode (dict.items q).
Proof.
  intros Hsch Hnet.
  destruct (filter_url_parts I u kwargs Hsch Hnet) as (q & newurl & Hq & Hu & Hp).
  exists q, newurl. rewrite Hp. by destruct (urlparse.urlparse u).
Qed.

Lemma filter_changes_only_query_witness :
  let u := "http://example.com/foo;v=1?a=1#top" in
  let kwargs := [("b", QStr "x y&z")] in
  http_like (urlparse.scheme (urlparse.urlparse u)) /\
  Str.nonempty (urlparse.netloc (urlparse.urlparse u)) = true /\
  Query.filter_url dict.cpython2 u kwargs
  = Some "http://example.com/foo;v=1?a=1&b=x+y%26z#top" /\
  exists q newurl,
    Query.merged dict.cpython2 (urlparse.query (urlparse.urlparse u)) kwargs = Some q /\
    Query.filter_url dict.cpython2 u kwargs = Some newurl /\
    urlparse.scheme (urlparse.urlparse newurl) = urlparse.scheme (urlparse.urlparse u) /\
    urlparse.netloc (urlparse.urlparse newurl) = urlparse.netloc (urlparse.urlparse u) /\
    urlparse.path (urlparse.urlparse newurl) = urlparse.path (urlparse.urlparse u) /\
    urlparse.params (urlparse.urlparse newurl) = urlparse.params (urlparse.urlparse u) /\
    urlparse.fragment (urlparse.urlparse newurl)
    = urlparse.fragment (urlparse.urlparse u) /\
    urlparse.query (urlparse.urlparse newurl) = urllib.urlencode (dict.items q).
Proof.
  cbv zeta. split; [left; reflexivity|]. split; [reflexivity|]. split; [reflexivity|].
  apply (filter_changes_only_query dict.cpython2 "http://example.com/foo;v=1?a=1#top"
           [("b", QStr "x y&z")]).
  - left. reflexivity.
  - reflexivity.
Defined.

Lemma get_strs (q : dict.t qval) k :
  dict.get ((fun kv => (kv.1, py_str kv.2)) <$> q) k = py_str <$> dict.get q k.
Proof. apply get_fmap_values. Qed.

(** X14: filters compose.  For an http or https URL with a network
    location, [a.filter(p).filter(q)] is at the URL of [a] with its query
    replaced: a parameter of [q] has the value [q] gives it, any other
    parameter of [p] has [str] of the value [p] gave it, and any other
    parameter of the query of [a] has the first value it had there; each
    parameter occurs once. *)
Theorem filter_composes I u (kw1 kw2 : dict.t qval) :
  http_like (urlparse.scheme (urlparse.urlparse u)) ->
  Str.nonempty (urlparse.netloc (urlparse.urlparse u)) = true ->
  NoDup (dict.keys kw1) -> NoDup (dict.keys kw2) ->
  exists u1 u2 q2,
    Query.filter_url I u kw1 = Some u1 /\
    Query.filter_url I u1 kw2 = Some u2 /\
    urlparse.urlparse u2
    = urlparse.set_query (urlparse.urlparse u) (urllib.urlencode (dict.items q2)) /\
    NoDup (dict.keys q2) /\
    forall k,
      dict.get q2 k =
      match dict.get kw2 k with
      | Some v => Some v
      | None =>
          match dict.get kw1 k with
          | Some v => Some (QStr (py_str v))
          | None =>
              QStr <$> dict.get
                         (cgi.parse_qsl (urlparse.query (urlparse.urlparse u)) true) k
          end
      end.
Proof.
  intros Hsch Hnet Hkw1 Hkw2.
  destruct (merged_spec I (urlparse.query (urlparse.urlparse u)) kw1 Hkw1)
    as (q1 & Hq1 & Hnd1 & Hget1).
  destruct (filter_url_parts I u kw1 Hsch Hnet) as (q1' & u1 & Hq1' & Hu1 & Hp1).
  rewrite Hq1 in Hq1'. injection Hq1' as <-.
  assert (Hsch1 : http_like (urlparse.scheme (urlparse.urlparse u1))) by (by rewrite Hp1).
  assert (Hnet1 : Str.nonempty (urlparse.netloc (urlparse.urlparse u1)) = true)
    by (by rewrite Hp1).
  destruct (merged_spec I (urlparse.query (urlparse.urlparse u1)) kw2 Hkw2)
    as (q2 & Hq2 & Hnd2 & Hget2).
  destruct (filter_url_parts I u1 kw2 Hsch1 Hnet1) as (q2' & u2 & Hq2' & Hu2 & Hp2).
  rewrite Hq2 in Hq2'. injection Hq2' as <-.
  exists u1, u2, q2. split_and!; [done|done| |done|].
  - rewrite Hp2, Hp1. by destruct (urlparse.urlparse u).
  - intros k. rewrite Hget2. destruct (dict.get kw2 k); [done|].
    rewrite Hp1. cbn [urlparse.set_query urlparse.query].
    rewrite parse_qsl_urlencode. unfold dict.items. rewrite get_strs, Hget1.
    destruct (dict.get kw1 k) as [v|]; [done|].
    by destruct (dict.get (cgi.parse_qsl (urlparse.query (urlparse.urlparse u)) true) k).
Qed.

Lemma filter_composes_witness :
  let u := "http://example.com/foo;v=1?a=1#top" in
  let kw1 := [("b", QStr "x y&z")] in
  let kw2 := [("a", QInt 2)] in
  http_like (urlparse.scheme (urlparse.urlparse u)) /\
  Str.nonempty (urlparse.netloc (urlparse.urlparse u)) = true /\
  NoDup (dict.keys kw1) /\ NoDup (dict.keys kw2) /\
  Query.filter_url dict.cpython2 u kw1
  = Some "http://example.com/foo;v=1?a=1&b=x+y%26z#top" /\
  Query.filter_url dict.cpython2 "http://example.com/foo;v=1?a=1&b=x+y%26z#top" kw2
  = Some "http://example.com/foo;v=1?a=2&b=x+y%26z#top" /\
  exists u1 u2 q2,
    Query.filter_url dict.cpython2 u kw1 = Some u1 /\
    Query.filter_url dict.cpython2 u1 kw2 = Some u2 /\
    urlparse.urlparse u2
    = urlparse.set_query (urlparse.urlparse u) (urllib.urlencode (dict.items q2)) /\
    NoDup (dict.keys q2) /\
    forall k,
      dict.get q2 k =
      match dict.get kw2 k with
      | Some v => Some v
      | None =>
          match dict.get kw1 k with
          | Some v => Some (QStr (py_str v))
          | None =>
              QStr <$> dict.get
                         (cgi.parse_qsl (urlparse.query (urlparse.urlparse u)) true) k
          end
      end.
Proof.
  cbv zeta. split; [left; reflexivity|]. split; [reflexivity|].
  split; [apply NoDup_singleton|]. split; [apply NoDup_singleton|].
  split; [reflexivity|]. split; [reflexivity|].
  apply (filter_composes dict.cpython2 "http://example.com/foo;v=1?a=1#top"
           [("b", QStr "x y&z")] [("a", QInt 2)]).
  - left. reflexivity.
  - reflexivity.
  - apply NoDup_singleton.
  - apply NoDup_singleton.
Defined.

(** ** Parameters with a blank value *)

(** The pieces of a query string: what stands between ['&'] and [';']. *)
Definition pieces (qs : string) : list string :=
  concat (map (Str.split ";") (Str.split "&" qs)).

(** The name a piece gives: the text before its first ['='], decoded. *)
Definition name_of (piece : string) : string :=
  urllib.unquote (Str.replace "+" " " (Str.split1 "=" piece).1).

Lemma parse_pair_name piece :
  Str.nonempty piece = true ->
  exists v, cgi.parse_pair true piece = Some (name_of piece, v).
Proof.
  intros Hne. unfold cgi.parse_pair, name_of. rewrite Hne. cbn [negb].
  destruct (Str.split1 "=" piece) as [n [v|]]; cbn [fst].
  - rewrite orb_true_r. by eexists.
  - by eexists.
Qed.

(** X15: [filter] drops no parameter of the old query ([parse_qs] is called
    with [keep_blank_values=True]): every piece of the query that is not
    empty, one with a blank value or with no ['='] at all among them, gives
    its name to a parameter of the new query. *)
Theorem filter_keeps_blank_parameters I u (kwargs : dict.t qval) piece :
  NoDup (dict.keys kwargs) ->
  piece ∈ pieces (urlparse.query (urlparse.urlparse u)) ->
  Str.nonempty piece = true ->
  exists q,
    Query.merged I (urlparse.query (urlparse.urlparse u)) kwargs = Some q /\
    Query.filter_url I u kwargs =
      Some (urlparse.urlunparse
              (urlparse.set_query (urlparse.urlparse u)
                 (urllib.urlencode (dict.items q)))) /\
    name_of piece ∈ dict.keys q.
Proof.
  intros Hkw Hin Hne.
  destruct (merged_spec I (urlparse.query (urlparse.urlparse u)) kwargs Hkw)
    as (q & Hq & Hnd & Hget).
  destruct (filter_url_merged I u kwargs) as (q' & Hq' & Hurl).
  rewrite Hq in Hq'. injection Hq' as <-.
  exists q. split_and!; [done|done|].
  destruct (parse_pair_name piece Hne) as [v Hv].
  assert (Hpair : (name_of piece, v)
                  ∈ cgi.parse_qsl (urlparse.query (urlparse.urlparse u)) true).
  { unfold cgi.parse_qsl. apply list_elem_of_omap. by exists piece. }
  apply elem_of_keys. rewrite Hget.
  destruct (dict.get kwargs (name_of piece)); [by eexists|].
  assert (Hk : name_of piece
               ∈ dict.keys (cgi.parse_qsl (urlparse.query (urlparse.urlparse u)) true)).
  { unfold dict.keys. apply list_elem_of_fmap. by exists (name_of piece, v). }
  apply elem_of_keys in Hk as [x ->]. by eexists.
Qed.

Lemma filter_keeps_blank_parameters_witness :
  let u := "http://example.com/foo?debug&x=&y=1" in
  NoDup (dict.keys ([] : dict.t qval)) /\
  "debug" ∈ pieces (urlparse.query (urlparse.urlparse u)) /\
  Str.nonempty "debug" = true /\
  Query.filter_url dict.cpython2 u [] = Some "http://example.com/foo?debug=&y=1&x=" /\
  exists q,
    Query.merged dict.cpython2 (urlparse.query (urlparse.urlparse u)) [] = Some q /\
    Query.filter_url dict.cpython2 u [] =
      Some (urlparse.urlunparse
              (urlparse.set_query (urlparse.urlparse u)
                 (urllib.urlencode (dict.items q)))) /\
    name_of "debug" ∈ dict.keys q.
Proof.
  cbv zeta.
  assert (Hin : "debug" ∈ pieces (urlparse.query
                                    (urlparse.urlparse "http://example.com/foo?debug&x=&y=1"))).
  { change (pieces (urlparse.query
                      (urlparse.urlparse "http://example.com/foo?debug&x=&y=1")))
      with ["debug"; "x="; "y=1"]. apply list_elem_of_here. }
  split; [apply NoDup_nil_2|]. split; [exact Hin|]. split; [reflexivity|].
  split; [reflexivity|].
  apply (filter_keeps_blank_parameters dict.cpython2
           "http://example.com/foo?debug&x=&y=1" [] "debug").
  - apply NoDup_nil_2.
  - exact Hin.
  - reflexivity.
Defined.

(** ** The search of the Netflix client *)

Lemma arrange_singleton I {V} (x : string * V) : dict.arrange I V [x] = [x].
Proof. apply Permutation_singleton_r, dict.arrange_perm. Qed.

Lemma of_items_singleton I {V} k (v : V) : dict.of_items I [(k, v)] = [(k, v)].
Proof.
  unfold dict.of_items, dict.update. simpl. unfold dict.set. simpl.
  apply arrange_singleton.
Qed.

Lemma merged_empty_query I k (v : qval) : Query.merged I "" [(k, v)] = Some [(k, v)].
Proof.
  unfold Query.merged.
  change (cgi.parse_qs I "" true) with ([] : dict.t (list string)).
  change (Query.first_values []) with (Some ([] : list (string * qval))).
  change (Some (dict.update I (dict.of_items I []) (dict.items [(k, v)]))
          = Some [(k, v)]).
  change (dict.update I (dict.of_items I []) (dict.items [(k, v)]))
    with (dict.of_items I [(k, v)]).
  by rewrite of_items_singleton.
Qed.

Lemma urlencode_singleton k v :
  urllib.urlencode [(k, QStr v)]
  = urllib.quote_plus k +:+ String "=" (urllib.quote_plus v).
Proof. reflexivity. Qed.

(** X16: the search of [do_search(opts, args)] is a new undelivered
    instance at [http://api.netflix.com/catalog/titles?term=] followed by
    the arguments, joined by spaces and escaped by [quote_plus]; building it
    requests nothing; and the parameters [Flixject.get_request] reads back
    from that URL for the OAuth request are the one parameter [term], with
    the joined arguments as they were typed. *)
Theorem netflix_search E args w :
  let new := S (length (heap w)) in
  let query := Str.join " " args in
  let url := "http://api.netflix.com/catalog/titles?term=" +:+ urllib.quote_plus query in
  exists w1,
    Netflix.search E args w = (Return new, w1) /\
    heap w1 !! new = Some (mkPromiseObject (mkHttpObject (Some url) []) false None) /\
    wire w1 = wire w /\
    mappings w1 = mappings w /\
    Netflix.get_request_parameters E url = Some [("term", QStr query)].
Proof.
  cbv zeta. unfold Netflix.search. unfold bind. rewrite Package_get_run.
  set (c := mkPromiseObject (mkHttpObject (Some "http://api.netflix.com/catalog/titles") [])
              false None).
  set (w0 := mkWorld (heap w ++ [c]) (mappings w) (wire w)).
  assert (Hc : heap w0 !! length (heap w) = Some c) by apply lookup_alloc.
  rewrite (Package_filter_run E _ c w0 _ Hc). cbn [c base _location _http].
  rewrite of_items_singleton.
  set (u := "http://api.netflix.com/catalog/titles").
  set (query := Str.join " " args).
  assert (Hparts : urlparse.urlparse u
                   = urlparse.Parts "http" "api.netflix.com" "/catalog/titles" "" "" "")
    by reflexivity.
  assert (Hurl : Query.filter_url (dict_impl E) u [("term", QStr query)]
                 = Some ("http://api.netflix.com/catalog/titles?term="
                         +:+ urllib.quote_plus query)).
  { unfold Query.filter_url. rewrite Hparts.
    cbn [urlparse.query]. rewrite merged_empty_query. cbn [mbind option_bind].
    unfold dict.items. rewrite urlencode_singleton.
    change (urllib.quote_plus "term") with "term".
    reflexivity. }
  rewrite Hurl.
  assert (Hlen : length (heap w0) = S (length (heap w)))
    by (cbn [heap w0]; rewrite length_app; simpl; lia).
  eexists. split; [by rewrite Hlen|]. split_and!; [|done|done|].
  - rewrite <- Hlen. apply lookup_alloc.
  - unfold Netflix.get_request_parameters.
    destruct (filter_url_parts (dict_impl E) u [("term", QStr query)])
      as (q & newurl & Hq & Hnew & Hp).
    + rewrite Hparts. by left.
    + by rewrite Hparts.
    + rewrite Hurl in Hnew. injection Hnew as <-.
      rewrite Hparts in Hq. cbn [urlparse.query] in Hq.
      rewrite merged_empty_query in Hq. injection Hq as <-.
      rewrite Hp. cbn [urlparse.set_query urlparse.query].
      unfold cgi.parse_qs, dict.items. rewrite parse_qsl_urlencode.
      cbn [fmap list_fmap fst snd py_str fold_left].
      unfold cgi.parse_qs_step. cbn [dict.get fst snd].
      unfold dict.set. cbn [dict.get app]. rewrite arrange_singleton.
      reflexivity.
Qed.
